(** * Flat price prediction API: session, ownership and inference adapter

    A shallow embedding of [backend/app.py]: the two bearer-token guards,
    the authentication endpoints, the ownership-scoped prediction
    resources, the admin oversight endpoints and the translation of a JSON
    payload into the model's feature vector.

    Python dictionaries used as registries ([active_tokens],
    [admin_tokens]) are finite maps; database tables are lists of rows in
    rowid order; exceptions are an explicit error type threaded through a
    small error monad; every handler is a function from a request and a
    state to a response and a state. *)

From Stdlib Require Import ZArith QArith Qround String Ascii List Lia Sorted Permutation.
From stdpp Require Import gmap strings list.

Set Warnings "-register-all".

Local Open Scope string_scope.
Local Open Scope list_scope.

(** ** Exceptions and the error monad *)

Inductive exn : Type :=
| KeyError (key : string)
| ValueError (msg : string)
| TypeError (msg : string)
| AttributeError (msg : string)
| IndexError (msg : string)
| ZeroDivisionError (msg : string)
| BadRequest (msg : string)
| InferenceError (msg : string).

(** [str(e)]: a [KeyError] prints the repr of its key, the others their
    message. *)
Definition str_exn (e : exn) : string :=
  match e with
  | KeyError k => String.append "'" (String.append k "'")
  | ValueError m | TypeError m | AttributeError m | IndexError m
  | ZeroDivisionError m | BadRequest m | InferenceError m => m
  end.

Definition py (A : Type) : Type := exn + A.

Definition ok {A} (x : A) : py A := inr x.
Definition raise {A} (e : exn) : py A := inl e.

Definition bind {A B} (m : py A) (k : A -> py B) : py B :=
  match m with
  | inl e => inl e
  | inr x => k x
  end.

Notation "x <-! m ; k" := (bind m (fun x => k))
  (at level 100, m at next level, right associativity,
   format "x  <-!  m ;  '/' k").

(** ** JSON values, as [request.json] and [jsonify] see them *)

Inductive json : Type :=
| JNull
| JBool (b : bool)
| JInt (z : Z)
| JFloat (q : Q)
| JStr (s : string)
| JArr (items : list json)
| JObj (fields : list (string * json)).

(** A Python number: the feature vector and the statistics mix [int] and
    [float]. A float is represented by the rational it denotes, which is
    exact for every finite double; the operations that round (parsing a
    literal, adding, dividing, rounding to two places) are collaborators
    below. *)
Inductive num : Type :=
| NInt (z : Z)
| NFloat (q : Q).

Definition num_to_json (x : num) : json :=
  match x with
  | NInt z => JInt z
  | NFloat q => JFloat q
  end.

(** Items of a parsed object in insertion order, one per key. *)
Fixpoint assoc (k : string) (fields : list (string * json)) : option json :=
  match fields with
  | [] => None
  | (k', v) :: rest => if String.eqb k k' then Some v else assoc k rest
  end.

(** Truth value of a Python object, as tested by [not x]. *)
Definition truthy (v : json) : bool :=
  match v with
  | JNull => false
  | JBool b => b
  | JInt z => negb (Z.eqb z 0)
  | JFloat q => negb (Z.eqb (Qnum q) 0)
  | JStr s => negb (String.eqb s "")
  | JArr l => match l with [] => false | _ => true end
  | JObj l => match l with [] => false | _ => true end
  end.

(** ** String builtins *)

(** [s.split(sep)] for a one-character separator: every occurrence cuts,
    so consecutive separators give empty segments and the result is never
    empty. *)
Fixpoint split (sep : ascii) (s : string) : list string :=
  match s with
  | EmptyString => [EmptyString]
  | String c s' =>
      if Ascii.eqb c sep then EmptyString :: split sep s'
      else match split sep s' with
           | w :: ws => String c w :: ws
           | [] => [String c EmptyString]
           end
  end.

(** [s.lower()] on the ASCII letters. No other character lower-cases to
    one of the letters of "yes", so the comparison in [yn] is the same as
    with Unicode case folding on the UTF-8 bytes. *)
Definition lower_ascii (c : ascii) : ascii :=
  let n := nat_of_ascii c in
  if (65 <=? n)%nat && (n <=? 90)%nat then ascii_of_nat (n + 32) else c.

Fixpoint lower (s : string) : string :=
  match s with
  | EmptyString => EmptyString
  | String c s' => String (lower_ascii c) (lower s')
  end.

Definition is_space (c : ascii) : bool :=
  let n := nat_of_ascii c in
  (n =? 32)%nat || ((9 <=? n)%nat && (n <=? 13)%nat).

Fixpoint lstrip (s : string) : string :=
  match s with
  | EmptyString => EmptyString
  | String c s' => if is_space c then lstrip s' else s
  end.

Fixpoint rev_string (acc s : string) : string :=
  match s with
  | EmptyString => acc
  | String c s' => rev_string (String c acc) s'
  end.

Definition strip (s : string) : string :=
  rev_string EmptyString (lstrip (rev_string EmptyString (lstrip s))).

Definition digit_of (c : ascii) : option Z :=
  let n := nat_of_ascii c in
  if (48 <=? n)%nat && (n <=? 57)%nat then Some (Z.of_nat (n - 48)) else None.

Fixpoint digits_acc (acc : Z) (s : string) : option Z :=
  match s with
  | EmptyString => Some acc
  | String c s' =>
      match digit_of c with
      | Some d => digits_acc (10 * acc + d) s'
      | None => None
      end
  end.

(** A non-empty run of decimal digits. *)
Definition parse_digits (s : string) : option Z :=
  match s with
  | EmptyString => None
  | _ => digits_acc 0 s
  end.

Definition parse_sign (s : string) : Z * string :=
  match s with
  | String "-"%char r => ((-1)%Z, r)
  | String "+"%char r => (1%Z, r)
  | _ => (1%Z, s)
  end.

(** ** Collaborators

    What [app.py] imports or loads and does not define: the salted hash
    of werkzeug (the salt is the request's random string), the pre-fit
    encoder of the furnishing status (its sorted [classes_]), the trained
    model, the rendering of time stamps, and the parts of the interpreter,
    of numpy and of the database driver whose behaviour the handlers
    rely on without fixing it:
    - [builtin_error name x]: the exception the named operation raises
      on an argument it does not accept, with the interpreter's message;
    - [int_of_literal], [float_of_literal]: [int(s)] and [float(s)] on
      the strings that are not plain decimal literals (exponents, digit
      groups, infinities, other scripts and spacing), accepted or not;
    - [float_of_int]: [float(n)] on an integer too large to be exact,
      which rounds or overflows;
    - [round2], [float_add], [float_div]: [round(x, 2)], [x + y] and
      [x / y] on floats;
    - [encode_other]: [LabelEncoder.transform([y])[0]] on a label that
      is not a string;
    - [bind_text]: the text the driver binds for a value that is not a
      string. *)

Class Collaborators : Type :=
  { generate_password_hash : string -> string -> string;
    check_password_hash : string -> string -> bool;
    furnishing_classes : list string;
    model_predict : list num -> py Q;
    isoformat : nat -> string;
    model_type_name : string;
    feature_names : list string;
    builtin_error : string -> json -> exn;
    int_of_literal : string -> py Z;
    float_of_literal : string -> py Q;
    float_of_int : Z -> py Q;
    round2 : Q -> Q;
    float_add : Q -> Q -> Q;
    float_div : Q -> Q -> Q;
    encode_other : json -> py Z;
    bind_text : json -> py string }.

(** ** Numeric coercions *)

(** The plain decimal literals, on which [int] is decided here: ASCII
    white space around an optional sign and a run of ASCII digits no
    longer than the interpreter's limit on the digits of an integer
    literal. *)
Definition int_of_str (s : string) : option Z :=
  let '(sg, r) := parse_sign (strip s) in
  if (String.length r <=? 4300)%nat
  then match parse_digits r with
       | Some n => Some (sg * n)%Z
       | None => None
       end
  else None.

(** The integers every double represents exactly: up to 2^53 in absolute
    value. *)
Definition exactly_representable (z : Z) : bool :=
  (Z.abs z <=? 9007199254740992)%Z.

(** [round(x, 2)] on an exact rational: nearest multiple of 1/100, ties
    to even. Used by the concrete instance below, not by the handlers. *)
Definition round_half_even (q : Q) : Z :=
  let fl := Qfloor q in
  match Qcompare (q - inject_Z fl) (1 # 2) with
  | Lt => fl
  | Gt => (fl + 1)%Z
  | Eq => if Z.even fl then fl else (fl + 1)%Z
  end.

Definition round2_exact (q : Q) : Q :=
  Qred (Qmake (round_half_even (q * 100)) 100).

Section Builtins.
Context `{Collaborators}.

(** [data[key]] *)
Definition getitem (data : json) (key : string) : py json :=
  match data with
  | JObj fields =>
      match assoc key fields with
      | Some v => ok v
      | None => raise (KeyError key)
      end
  | _ => raise (builtin_error "getitem" data)
  end.

(** [data.get(key)] *)
Definition get (data : json) (key : string) : py json :=
  match data with
  | JObj fields =>
      match assoc key fields with
      | Some v => ok v
      | None => ok JNull
      end
  | _ => raise (builtin_error "get" data)
  end.

(** [int(x)]: an integer is itself, a boolean 0 or 1, a float is
    truncated towards zero, a plain decimal literal is its value; any
    other string is left to [int_of_literal]; null, lists and objects
    raise. *)
Definition py_int (x : json) : py Z :=
  match x with
  | JInt z => ok z
  | JBool b => ok (if b then 1 else 0)%Z
  | JFloat q => ok (Z.quot (Qnum q) (Zpos (Qden q)))
  | JStr s =>
      match int_of_str s with
      | Some z => ok z
      | None => int_of_literal s
      end
  | _ => raise (builtin_error "int" x)
  end.

(** [float(x)]: exact on a float, a boolean, an integer within the exact
    range and a plain decimal integer literal within it; any other
    integer or string is left to [float_of_int] or [float_of_literal];
    null, lists and objects raise. *)
Definition py_float (x : json) : py Q :=
  match x with
  | JInt z => if exactly_representable z then ok (inject_Z z) else float_of_int z
  | JBool b => ok (inject_Z (if b then 1 else 0))
  | JFloat q => ok q
  | JStr s =>
      match int_of_str s with
      | Some z => if exactly_representable z then ok (inject_Z z) else float_of_literal s
      | None => float_of_literal s
      end
  | _ => raise (builtin_error "float" x)
  end.

(** [round(x, 2)]: an integer is unchanged. *)
Definition py_round2 (x : num) : num :=
  match x with
  | NInt z => NInt z
  | NFloat q => NFloat (round2 q)
  end.

(** [sum(xs)] on floats: starts from the integer 0, to which the first
    float is added exactly. *)
Definition py_sum (xs : list Q) : Q :=
  match xs with
  | [] => 0%Q
  | x :: rest => fold_left float_add rest x
  end.

(** [x / n] with [n = len(...)]: division by zero raises. *)
Definition py_truediv (x : Q) (n : nat) : py Q :=
  match n with
  | O => raise (ZeroDivisionError "division by zero")
  | S _ => ok (float_div x (inject_Z (Z.of_nat n)))
  end.
End Builtins.

Definition Qmaxb (a b : Q) : Q := if Qle_bool a b then b else a.
Definition Qminb (a b : Q) : Q := if Qle_bool b a then b else a.

(** [max(xs)] and [min(xs)]: an empty sequence raises. *)
Definition py_max (xs : list Q) : py Q :=
  match xs with
  | [] => raise (ValueError "max() arg is an empty sequence")
  | x :: rest => ok (fold_left Qmaxb rest x)
  end.

Definition py_min (xs : list Q) : py Q :=
  match xs with
  | [] => raise (ValueError "min() arg is an empty sequence")
  | x :: rest => ok (fold_left Qminb rest x)
  end.

(** ** Tables

    [models.py], which declares the [User], [Admin] and [Prediction]
    tables and [db], is not among the sources; the rows below carry the
    columns of the spec's data model, which are also the attributes
    [app.py] reads and writes. *)

Module User.
(** Modelled from the spec: the [User] table of [models.py], which is
    not among the sources. [id] is the primary key; [is_blocked] is
    false and [created_at] the time of insertion for a new row. *)
Record t : Type := mk
  { id : nat; email : string; password : string;
    is_blocked : bool; created_at : nat }.
End User.

Module Admin.
(** Modelled from the spec: the [Admin] table of [models.py], which is
    not among the sources. *)
Record t : Type := mk
  { id : nat; email : string; password : string;
    role : string; created_at : nat }.
End Admin.

Module Prediction.
(** Modelled from the spec: the [Prediction] table of [models.py],
    which is not among the sources. [user_id] is the owner's id and is
    not checked against the user table when a row is written or a user
    is deleted. *)
Record t : Type := mk
  { id : nat; user_id : nat; input_data : json; price : Q;
    favorite : bool; created_at : nat }.
End Prediction.

(** Modelled from the spec: the id the database gives a new row, which
    [models.py] and the store decide. Ids are unique; the next one is one
    more than the largest id in the table. *)
Definition next_id (ids : list nat) : nat := S (foldr Nat.max 0%nat ids).

(** [order_by(key.desc())]: rows by decreasing key, rows with equal keys
    in table order. *)
Fixpoint insert_desc {A} (key : A -> nat) (x : A) (l : list A) : list A :=
  match l with
  | [] => [x]
  | y :: l' => if (key y <=? key x)%nat then x :: l else y :: insert_desc key x l'
  end.

Definition order_by_desc {A} (key : A -> nat) (l : list A) : list A :=
  foldr (insert_desc key) [] l.

(** ** The state of the service: the three tables and the two token
    registries of [app.py]. *)

Record state : Type := mkState
  { users : list User.t;
    admins : list Admin.t;
    predictions : list Prediction.t;
    active_tokens : gmap string nat;
    admin_tokens : gmap string nat }.

Definition set_users (us : list User.t) (st : state) : state :=
  mkState us (admins st) (predictions st) (active_tokens st) (admin_tokens st).

Definition set_predictions (ps : list Prediction.t) (st : state) : state :=
  mkState (users st) (admins st) ps (active_tokens st) (admin_tokens st).

Definition set_active_tokens (m : gmap string nat) (st : state) : state :=
  mkState (users st) (admins st) (predictions st) m (admin_tokens st).

Definition set_admin_tokens (m : gmap string nat) (st : state) : state :=
  mkState (users st) (admins st) (predictions st) (active_tokens st) m.

(** ** Requests and responses *)

Inductive route : Type :=
| Register | Login | Me | Logout
| AdminLogin | AdminMe | AdminLogout
| Predict | History
| DeleteHistory (id : nat)
| ToggleFavorite (id : nat)
| AdminUsers
| DeleteUser (user_id : nat)
| ToggleBlockUser (user_id : nat)
| AdminPredictions
| DeletePredictionAdmin (prediction_id : nat)
| AdminStats | AdminModelInfo | Home.

(** What a handler reads from the outside: the route, the
    [Authorization] header if present, [request.json] (which may raise),
    the clock, and the random string drawn while the request is served
    (the token of a login, the salt of a registration). *)
Record request : Type := mkRequest
  { path : route;
    authorization : option string;
    json_body : py json;
    now : nat;
    rand : string }.

Record response : Type := mkResponse { status : nat; body : json }.

Definition handler : Type := request -> state -> response * state.

Definition jsonify (fields : list (string * json)) (code : nat) : response :=
  mkResponse code (JObj fields).

Definition error (msg : string) (code : nat) : response :=
  jsonify [("error", JStr msg)] code.

Definition message (msg : string) (code : nat) : response :=
  jsonify [("message", JStr msg)] code.

(** [try: ... except Exception as e: return jsonify({"error": str(e)}), 400]:
    nothing was committed when the body raised. *)
Definition catch (st : state) (m : py (response * state)) : response * state :=
  match m with
  | inr r => r
  | inl e => (error (str_exn e) 400, st)
  end.

(** ** Access guards *)

(** The part shared by the two decorators up to the registry lookup: the
    header is split on single spaces and its second segment is the token;
    a header without one is a format error; no header, or an empty token,
    is a missing token. *)
Definition extract_token (req : request) : response + string :=
  match
    match authorization req with
    | Some auth_header =>
        match split " " auth_header !! 1%nat with
        | Some t => inr (Some t)
        | None => inl (error "Invalid token format" 401)
        end
    | None => inr None
    end
  with
  | inl r => inl r
  | inr None => inl (error "Token is missing" 401)
  | inr (Some t) =>
      if String.eqb t "" then inl (error "Token is missing" 401) else inr t
  end.

Definition token_required (f : nat -> handler) : handler :=
  fun req st =>
    match extract_token req with
    | inl r => (r, st)
    | inr token =>
        match active_tokens st !! token with
        | None => (error "Invalid or expired token" 401, st)
        | Some current_user_id => f current_user_id req st
        end
    end.

Definition admin_required (f : nat -> handler) : handler :=
  fun req st =>
    match extract_token req with
    | inl r => (r, st)
    | inr token =>
        match admin_tokens st !! token with
        | None => (error "Invalid or expired admin token" 401, st)
        | Some current_admin_id => f current_admin_id req st
        end
    end.

(** [query.filter_by(...).first()] and [query.get(id)] *)
Definition first {A} (p : A -> bool) (rows : list A) : option A := List.find p rows.

Definition non_empty {A} (rows : list A) : bool :=
  match rows with [] => false | _ => true end.

Section Credentials.
Context `{Collaborators}.

(** The email as the query and the insert bind it: a string is itself,
    any other value is what the driver makes of it. *)
Definition as_text (v : json) : py string :=
  match v with
  | JStr s => ok s
  | _ => bind_text v
  end.

(** The password as the hash functions take it: they encode a string and
    raise on anything else. *)
Definition password_text (v : json) : py string :=
  match v with
  | JStr s => ok s
  | _ => raise (builtin_error "encode" v)
  end.
End Credentials.

Definition header (req : request) : py string :=
  match authorization req with
  | Some h => ok h
  | None => raise (KeyError "HTTP_AUTHORIZATION")
  end.

Definition second_segment (auth_header : string) : py string :=
  match split " " auth_header !! 1%nat with
  | Some t => ok t
  | None => raise (IndexError "list index out of range")
  end.

(** ** Inference adapter *)

(** [yn]: [1 if str(x).lower() == "yes" else 0]. The [str] of a JSON value
    that is not a string is [None], [True], [False], a numeral or a
    bracketed repr, none of which lower-cases to "yes". *)
Definition yn (x : json) : Z :=
  match x with
  | JStr s => if String.eqb (lower s) "yes" then 1%Z else 0%Z
  | _ => 0%Z
  end.

Fixpoint index_of (s : string) (classes : list string) : option nat :=
  match classes with
  | [] => None
  | c :: rest =>
      if String.eqb s c then Some O
      else match index_of s rest with
           | Some i => Some (S i)
           | None => None
           end
  end.

Section Translation.
Context `{Collaborators}.

(** [LabelEncoder.transform([y])[0]]: for a string, its position among
    the classes, and a string not seen when the encoder was fit raises;
    a label that is not a string is left to [encode_other] (numpy
    flattens a nested list before it looks the labels up). *)
Definition transform (classes : list string) (y : json) : py Z :=
  match y with
  | JStr s =>
      match index_of s classes with
      | Some i => ok (Z.of_nat i)
      | None => raise (builtin_error "transform" y)
      end
  | _ => encode_other y
  end.

Definition float_field (data : json) (key : string) : py num :=
  x <-! getitem data key; q <-! py_float x; ok (NFloat q).

Definition int_field (data : json) (key : string) : py num :=
  x <-! getitem data key; z <-! py_int x; ok (NInt z).

Definition yn_field (data : json) (key : string) : py num :=
  x <-! getitem data key; ok (NInt (yn x)).

(** The list [input_data] of [predict], its elements evaluated in order. *)
Definition translate (classes : list string) (data : json) : py (list num) :=
  area <-! float_field data "area";
  bedrooms <-! int_field data "bedrooms";
  bathrooms <-! int_field data "bathrooms";
  stories <-! int_field data "stories";
  mainroad <-! yn_field data "mainroad";
  guestroom <-! yn_field data "guestroom";
  basement <-! yn_field data "basement";
  hotwaterheating <-! yn_field data "hotwaterheating";
  airconditioning <-! yn_field data "airconditioning";
  parking <-! int_field data "parking";
  prefarea <-! yn_field data "prefarea";
  furnishingstatus <-! (x <-! getitem data "furnishingstatus";
                        code <-! transform classes x; ok (NInt code));
  ok [area; bedrooms; bathrooms; stories; mainroad; guestroom; basement;
      hotwaterheating; airconditioning; parking; prefarea; furnishingstatus].
End Translation.

(** ** Handlers *)

Section Handlers.
Context `{Collaborators}.

Definition by_email (email : string) (u : User.t) : bool :=
  String.eqb (User.email u) email.

Definition register : handler := fun req st =>
  catch st
    (data <-! json_body req;
     email <-! get data "email";
     password <-! get data "password";
     if negb (truthy email) || negb (truthy password)
     then ok (error "Email and password required" 400, st)
     else
       email <-! as_text email;
       match first (by_email email) (users st) with
       | Some _ => ok (error "Email already registered" 400, st)
       | None =>
           password <-! password_text password;
           let hashed_password := generate_password_hash (rand req) password in
           let new_user :=
             User.mk (next_id (map User.id (users st))) email hashed_password
                     false (now req) in
           ok (message "User registered successfully" 200,
               set_users (users st ++ [new_user]) st)
       end).

Definition login : handler := fun req st =>
  catch st
    (data <-! json_body req;
     email <-! get data "email";
     password <-! get data "password";
     if negb (truthy email) || negb (truthy password)
     then ok (error "Email and password required" 400, st)
     else
       email <-! as_text email;
       match first (by_email email) (users st) with
       | None => ok (error "Invalid credentials" 401, st)
       | Some user =>
           password <-! password_text password;
           if negb (check_password_hash (User.password user) password)
           then ok (error "Invalid credentials" 401, st)
           else
             let token := rand req in
             ok (jsonify
                   [("token", JStr token);
                    ("user", JObj [("id", JInt (Z.of_nat (User.id user)));
                                   ("email", JStr (User.email user))])] 200,
                 set_active_tokens (<[token := User.id user]> (active_tokens st)) st)
       end).

Definition get_current_user (current_user_id : nat) : handler := fun req st =>
  catch st
    (match first (fun u => Nat.eqb (User.id u) current_user_id) (users st) with
     | None => ok (error "User not found" 404, st)
     | Some user =>
         ok (jsonify
               [("id", JInt (Z.of_nat (User.id user)));
                ("email", JStr (User.email user));
                ("created_at", JStr (isoformat (User.created_at user)))] 200, st)
     end).

Definition logout (current_user_id : nat) : handler := fun req st =>
  catch st
    (auth_header <-! header req;
     token <-! second_segment auth_header;
     ok (message "Logged out successfully" 200,
         match active_tokens st !! token with
         | Some _ => set_active_tokens (delete token (active_tokens st)) st
         | None => st
         end)).

Definition admin_by_email (email : string) (a : Admin.t) : bool :=
  String.eqb (Admin.email a) email.

Definition admin_login : handler := fun req st =>
  catch st
    (data <-! json_body req;
     email <-! get data "email";
     password <-! get data "password";
     if negb (truthy email) || negb (truthy password)
     then ok (error "Email and password required" 400, st)
     else
       email <-! as_text email;
       match first (admin_by_email email) (admins st) with
       | None => ok (error "Invalid admin credentials" 401, st)
       | Some admin =>
           password <-! password_text password;
           if negb (check_password_hash (Admin.password admin) password)
           then ok (error "Invalid admin credentials" 401, st)
           else
             let token := rand req in
             ok (jsonify
                   [("token", JStr token);
                    ("admin", JObj [("id", JInt (Z.of_nat (Admin.id admin)));
                                    ("email", JStr (Admin.email admin));
                                    ("role", JStr (Admin.role admin))])] 200,
                 set_admin_tokens (<[token := Admin.id admin]> (admin_tokens st)) st)
       end).

Definition get_current_admin (current_admin_id : nat) : handler := fun req st =>
  catch st
    (match first (fun a => Nat.eqb (Admin.id a) current_admin_id) (admins st) with
     | None => ok (error "Admin not found" 404, st)
     | Some admin =>
         ok (jsonify
               [("id", JInt (Z.of_nat (Admin.id admin)));
                ("email", JStr (Admin.email admin));
                ("role", JStr (Admin.role admin));
                ("created_at", JStr (isoformat (Admin.created_at admin)))] 200, st)
     end).

Definition admin_logout (current_admin_id : nat) : handler := fun req st =>
  catch st
    (auth_header <-! header req;
     token <-! second_segment auth_header;
     ok (message "Admin logged out successfully" 200,
         match admin_tokens st !! token with
         | Some _ => set_admin_tokens (delete token (admin_tokens st)) st
         | None => st
         end)).

(** [input_data] holds [json.dumps(data)]; the listings read it back
    with [json.loads], so the row keeps the payload itself. *)
Definition predict (current_user_id : nat) : handler := fun req st =>
  catch st
    (data <-! json_body req;
     input_data <-! translate furnishing_classes data;
     price <-! model_predict input_data;
     let price := round2 price in
     let prediction :=
       Prediction.mk (next_id (map Prediction.id (predictions st)))
                     current_user_id data price false (now req) in
     ok (jsonify
           [("predicted_price", JFloat price);
            ("prediction_id", JInt (Z.of_nat (Prediction.id prediction)))] 200,
         set_predictions (predictions st ++ [prediction]) st)).

Definition prediction_json (pred : Prediction.t) : json :=
  JObj [("id", JInt (Z.of_nat (Prediction.id pred)));
        ("input", Prediction.input_data pred);
        ("price", JFloat (Prediction.price pred));
        ("favorite", JBool (Prediction.favorite pred));
        ("created_at", JStr (isoformat (Prediction.created_at pred)))].

Definition owned_by (user_id : nat) (p : Prediction.t) : bool :=
  Nat.eqb (Prediction.user_id p) user_id.

Definition get_history (current_user_id : nat) : handler := fun req st =>
  catch st
    (let predictions :=
       order_by_desc Prediction.created_at
                     (filter (fun p => owned_by current_user_id p = true) (predictions st)) in
     ok (mkResponse 200 (JArr (map prediction_json predictions)), st)).

(** [filter_by(id=id, user_id=current_user_id)] *)
Definition by_id_and_owner (id user_id : nat) (p : Prediction.t) : bool :=
  Nat.eqb (Prediction.id p) id && Nat.eqb (Prediction.user_id p) user_id.

(** Modelled from the spec: [db.session.delete(row); db.session.commit()]
    removes the row with that primary key and no other row of any
    table; the relationships of [models.py] are not among the sources. *)
Definition delete_prediction (row : Prediction.t) (rows : list Prediction.t)
  : list Prediction.t :=
  filter (fun p => Prediction.id p <> Prediction.id row) rows.

(** Modelled from the spec: deleting a user is a direct removal of the
    row, with no cascade to the predictions it owns. *)
Definition delete_user_row (row : User.t) (rows : list User.t) : list User.t :=
  filter (fun u => User.id u <> User.id row) rows.

Definition delete_history (current_user_id id : nat) : handler := fun req st =>
  catch st
    (match first (by_id_and_owner id current_user_id) (predictions st) with
     | None => ok (error "Prediction not found" 404, st)
     | Some prediction =>
         ok (message "deleted" 200,
             set_predictions (delete_prediction prediction (predictions st)) st)
     end).

Definition flip_favorite (p : Prediction.t) : Prediction.t :=
  Prediction.mk (Prediction.id p) (Prediction.user_id p) (Prediction.input_data p)
                (Prediction.price p) (negb (Prediction.favorite p))
                (Prediction.created_at p).

Definition toggle_favorite (current_user_id id : nat) : handler := fun req st =>
  catch st
    (match first (by_id_and_owner id current_user_id) (predictions st) with
     | None => ok (error "Prediction not found" 404, st)
     | Some prediction =>
         let updated := flip_favorite prediction in
         ok (jsonify [("message", JStr "favorite toggled");
                      ("favorite", JBool (Prediction.favorite updated))] 200,
             set_predictions
               (map (fun p => if Nat.eqb (Prediction.id p) (Prediction.id prediction)
                              then flip_favorite p else p) (predictions st)) st)
     end).

Definition get_all_users (current_admin_id : nat) : handler := fun req st =>
  catch st
    (let user_list :=
       map (fun user =>
              let prediction_count :=
                length (filter (fun p => owned_by (User.id user) p = true) (predictions st)) in
              JObj [("id", JInt (Z.of_nat (User.id user)));
                    ("email", JStr (User.email user));
                    ("is_blocked", JBool (User.is_blocked user));
                    ("created_at", JStr (isoformat (User.created_at user)));
                    ("prediction_count", JInt (Z.of_nat prediction_count))])
           (users st) in
     ok (mkResponse 200 (JArr user_list), st)).

Definition user_by_id (user_id : nat) (u : User.t) : bool :=
  Nat.eqb (User.id u) user_id.

Definition delete_user (current_admin_id user_id : nat) : handler := fun req st =>
  catch st
    (match first (user_by_id user_id) (users st) with
     | None => ok (error "User not found" 404, st)
     | Some user =>
         ok (message "User deleted successfully" 200,
             set_users (delete_user_row user (users st)) st)
     end).

Definition flip_blocked (u : User.t) : User.t :=
  User.mk (User.id u) (User.email u) (User.password u)
          (negb (User.is_blocked u)) (User.created_at u).

Definition toggle_block_user (current_admin_id user_id : nat) : handler := fun req st =>
  catch st
    (match first (user_by_id user_id) (users st) with
     | None => ok (error "User not found" 404, st)
     | Some user =>
         let updated := flip_blocked user in
         ok (jsonify [("message", JStr "User block status updated");
                      ("is_blocked", JBool (User.is_blocked updated))] 200,
             set_users
               (map (fun u => if Nat.eqb (User.id u) (User.id user)
                              then flip_blocked u else u) (users st)) st)
     end).

(** One entry of the admin listing: the owner's email, or "Unknown"
    when no user has the prediction's [user_id]. *)
Definition admin_prediction_json (us : list User.t) (pred : Prediction.t) : json :=
  let user := first (user_by_id (Prediction.user_id pred)) us in
  JObj [("id", JInt (Z.of_nat (Prediction.id pred)));
        ("user_email",
         JStr (match user with Some u => User.email u | None => "Unknown" end));
        ("user_id", JInt (Z.of_nat (Prediction.user_id pred)));
        ("input", Prediction.input_data pred);
        ("price", JFloat (Prediction.price pred));
        ("favorite", JBool (Prediction.favorite pred));
        ("created_at", JStr (isoformat (Prediction.created_at pred)))].

Definition get_all_predictions (current_admin_id : nat) : handler := fun req st =>
  catch st
    (let predictions := order_by_desc Prediction.created_at (predictions st) in
     ok (mkResponse 200 (JArr (map (admin_prediction_json (users st)) predictions)), st)).

Definition delete_prediction_admin (current_admin_id prediction_id : nat) : handler :=
  fun req st =>
    catch st
      (match first (fun p => Nat.eqb (Prediction.id p) prediction_id) (predictions st) with
       | None => ok (error "Prediction not found" 404, st)
       | Some prediction =>
           ok (message "Prediction deleted successfully" 200,
               set_predictions (delete_prediction prediction (predictions st)) st)
       end).

(** The three aggregates of [get_statistics], each written
    [<expr> if predictions else 0]: the expression is evaluated only
    when the list is not empty. *)
Definition avg_price (predictions : list Prediction.t) : py num :=
  if non_empty predictions
  then q <-! py_truediv (py_sum (map Prediction.price predictions)) (length predictions);
       ok (NFloat q)
  else ok (NInt 0).

Definition max_price (predictions : list Prediction.t) : py num :=
  if non_empty predictions
  then q <-! py_max (map Prediction.price predictions); ok (NFloat q)
  else ok (NInt 0).

Definition min_price (predictions : list Prediction.t) : py num :=
  if non_empty predictions
  then q <-! py_min (map Prediction.price predictions); ok (NFloat q)
  else ok (NInt 0).

Definition get_statistics (current_admin_id : nat) : handler := fun req st =>
  catch st
    (let total_users := length (users st) in
     let total_predictions := length (predictions st) in
     let predictions_all := predictions st in
     avg <-! avg_price predictions_all;
     let recent_users := take 5 (order_by_desc User.created_at (users st)) in
     let recent_predictions :=
       take 5 (order_by_desc Prediction.created_at (predictions st)) in
     mx <-! max_price predictions_all;
     mn <-! min_price predictions_all;
     ok (jsonify
           [("total_users", JInt (Z.of_nat total_users));
            ("total_predictions", JInt (Z.of_nat total_predictions));
            ("avg_price", num_to_json (py_round2 avg));
            ("max_price", num_to_json (py_round2 mx));
            ("min_price", num_to_json (py_round2 mn));
            ("recent_users_count", JInt (Z.of_nat (length recent_users)));
            ("recent_predictions_count", JInt (Z.of_nat (length recent_predictions)))]
           200, st)).

Definition get_model_info (current_admin_id : nat) : handler := fun req st =>
  catch st
    (ok (jsonify
           [("model_type", JStr model_type_name);
            ("features_count", JInt (Z.of_nat (length feature_names)));
            ("feature_names", JArr (map JStr feature_names));
            ("last_trained", JStr "2024-01-15");
            ("accuracy", JStr "85.3%");
            ("total_predictions", JInt (Z.of_nat (length (predictions st))))] 200, st)).

Definition home : handler := fun req st =>
  (mkResponse 200 (JStr "Flat Price Prediction API Running"), st).

(** The routing table: each endpoint behind the decorator it is
    declared with. *)
Definition app : handler := fun req =>
  match path req with
  | Register => register req
  | Login => login req
  | Me => token_required get_current_user req
  | Logout => token_required logout req
  | AdminLogin => admin_login req
  | AdminMe => admin_required get_current_admin req
  | AdminLogout => admin_required admin_logout req
  | Predict => token_required predict req
  | History => token_required get_history req
  | DeleteHistory id => token_required (fun uid => delete_history uid id) req
  | ToggleFavorite id => token_required (fun uid => toggle_favorite uid id) req
  | AdminUsers => admin_required get_all_users req
  | DeleteUser user_id => admin_required (fun aid => delete_user aid user_id) req
  | ToggleBlockUser user_id => admin_required (fun aid => toggle_block_user aid user_id) req
  | AdminPredictions => admin_required get_all_predictions req
  | DeletePredictionAdmin pid =>
      admin_required (fun aid => delete_prediction_admin aid pid) req
  | AdminStats => admin_required get_statistics req
  | AdminModelInfo => admin_required get_model_info req
  | Home => home req
  end.

(** A run of the service: requests served one after the other. *)
Fixpoint run (reqs : list request) (st : state) : list response * state :=
  match reqs with
  | [] => ([], st)
  | req :: rest =>
      let '(r, st') := app req st in
      let '(rs, st'') := run rest st' in
      (r :: rs, st'')
  end.
End Handlers.

(** ** A concrete instance of the collaborators

    Used to run the service on concrete requests: a hash that
    [check_password_hash] accepts exactly for the password it was made
    from, the three furnishing classes of the housing data in sorted
    order, a model that answers a constant, and exact rational
    arithmetic. The runs below stay within plain decimal literals and
    text credentials, so the stand-ins for the other literals, for the
    labels that are not strings and for the driver are never reached. *)

Definition sample_check (hash password : string) : bool :=
  match split "$" hash with
  | [_; p] => String.eqb p password
  | _ => false
  end.

Definition sample_collaborators : Collaborators :=
  {| generate_password_hash := fun salt password => String.append salt (String.append "$" password);
     check_password_hash := sample_check;
     furnishing_classes := ["furnished"; "semi-furnished"; "unfurnished"];
     model_predict := fun _ => ok (4500000 # 1);
     isoformat := fun _ => "2024-01-15T00:00:00";
     model_type_name := "RandomForestRegressor";
     feature_names :=
       ["area"; "bedrooms"; "bathrooms"; "stories"; "mainroad"; "guestroom";
        "basement"; "hotwaterheating"; "airconditioning"; "parking";
        "prefarea"; "furnishingstatus"];
   builtin_error := fun name _ => TypeError name;
   int_of_literal := fun _ => raise (ValueError "invalid literal for int()");
   float_of_literal := fun _ => raise (ValueError "could not convert string to float");
   float_of_int := fun z => ok (inject_Z z);
   round2 := round2_exact;
   float_add := Qplus;
   float_div := Qdiv;
   encode_other := fun _ => raise (ValueError "y contains previously unseen labels");
   bind_text := fun _ => raise (TypeError "unsupported type") |}.

Definition empty_state : state := mkState [] [] [] ∅ ∅.

(** The state after [create_admin.py] has run on an empty database. *)
Definition provisioned_state : state :=
  mkState []
          [Admin.mk 1 "admin@flatprice.com"
                    (@generate_password_hash sample_collaborators "salt" "admin123")
                    "admin" 0]
          [] ∅ ∅.

Definition credentials (email password : string) : json :=
  JObj [("email", JStr email); ("password", JStr password)].

(** The payload of the spec's example. *)
Definition example_payload : json :=
  JObj [("area", JStr "7500"); ("bedrooms", JInt 4); ("bathrooms", JInt 2);
        ("stories", JInt 2); ("mainroad", JStr "yes"); ("guestroom", JStr "no");
        ("basement", JStr "yes"); ("hotwaterheating", JStr "no");
        ("airconditioning", JStr "yes"); ("parking", JInt 2);
        ("prefarea", JStr "yes"); ("furnishingstatus", JStr "semi-furnished")].

(** ** Predicates on states used in the statements *)

(** The primary key of the prediction table. *)
Definition unique_prediction_ids (st : state) : Prop :=
  NoDup (map Prediction.id (predictions st)).


Definition unblocked (u : User.t) : User.t :=
  User.mk (User.id u) (User.email u) (User.password u) false (User.created_at u).

(** Two states that differ at most in the [is_blocked] flags. *)
Definition same_modulo_block (st1 st2 : state) : Prop :=
  map unblocked (users st1) = map unblocked (users st2) /\
  admins st1 = admins st2 /\
  predictions st1 = predictions st2 /\
  active_tokens st1 = active_tokens st2 /\
  admin_tokens st1 = admin_tokens st2.

(** The endpoints a user reaches: the open ones and those behind
    [token_required]. *)
Definition user_route (r : route) : bool :=
  match r with
  | Register | Login | Me | Logout | Predict | History
  | DeleteHistory _ | ToggleFavorite _ => true
  | _ => false
  end.

(** The spellings of "yes" that differ only in case. *)
Definition yes_spellings : list string :=
  ["yes"; "yeS"; "yEs"; "yES"; "Yes"; "YeS"; "YEs"; "YES"].

(** The vector the spec's example must give, for the encoder code [e]. *)
Definition example_vector (e : Z) : list num :=
  [NFloat (7500 # 1); NInt 4; NInt 2; NInt 2; NInt 1; NInt 0; NInt 1; NInt 0;
   NInt 1; NInt 2; NInt 1; NInt e].





(** A session on the provisioned state: a user registers and logs in,
    the admin logs in and deletes that user, and the user's token is
    then presented to POST /predict. *)
Definition register_req : request :=
  mkRequest Register None (ok (credentials "u@x.org" "pw")) 1 "salt1".

Definition login_req : request :=
  mkRequest Login None (ok (credentials "u@x.org" "pw")) 2 "usertok".

Definition admin_login_req : request :=
  mkRequest AdminLogin None (ok (credentials "admin@flatprice.com" "admin123")) 3 "admintok".


Definition toggle_block_req : request :=
  mkRequest (ToggleBlockUser 1) (Some "Bearer admintok") (ok JNull) 4 "".

Definition predict_req : request :=
  mkRequest Predict (Some "Bearer usertok") (ok example_payload) 5 "".

(** ** The routing table, read as data *)

Inductive guard : Type := Open | UserGuard | AdminGuard.

(** The decorator each route is declared with. *)
Definition guard_of (r : route) : guard :=
  match r with
  | Register | Login | AdminLogin | Home => Open
  | Me | Logout | Predict | History | DeleteHistory _ | ToggleFavorite _ => UserGuard
  | AdminMe | AdminLogout | AdminUsers | DeleteUser _ | ToggleBlockUser _
  | AdminPredictions | DeletePredictionAdmin _ | AdminStats | AdminModelInfo => AdminGuard
  end.

(** The principal a request is served for, if its route is guarded and
    its token is in the registry of that guard. *)
Definition principal (req : request) (st : state) : option nat :=
  match guard_of (path req), extract_token req with
  | UserGuard, inr tok => active_tokens st !! tok
  | AdminGuard, inr tok => admin_tokens st !! tok
  | _, _ => None
  end.

(** The routes served with GET. *)
Definition read_only (r : route) : bool :=
  match r with
  | Me | AdminMe | History | AdminUsers | AdminPredictions | AdminStats
  | AdminModelInfo | Home => true
  | _ => false
  end.

(** ** Definitions used by the further properties *)

(** A string without the separator, as the URL-safe tokens of
    [secrets.token_urlsafe] are with respect to the space. *)
Fixpoint free_of (sep : ascii) (s : string) : bool :=
  match s with
  | EmptyString => true
  | String c s' => negb (Ascii.eqb c sep) && free_of sep s'
  end.

(** The header a client sends for a token. *)
Definition bearer (token : string) : string := String.append "Bearer " token.

(** Rows by decreasing key: each row is at least as recent as every row
    after it. *)
Definition newest_first {A} (key : A -> nat) (rows : list A) : Prop :=
  StronglySorted (fun a b => (key b <= key a)%nat) rows.

(** The update [toggle_favorite] and [toggle_block_user] commit: the rows
    with the primary key of the row found are replaced by their flip. *)
Definition flip_favorite_of (row : Prediction.t) (p : Prediction.t) : Prediction.t :=
  if Nat.eqb (Prediction.id p) (Prediction.id row) then flip_favorite p else p.

Definition flip_blocked_of (row : User.t) (u : User.t) : User.t :=
  if Nat.eqb (User.id u) (User.id row) then flip_blocked u else u.

(** The unique constraint on [User.email] that [register] maintains. *)
Definition unique_emails (st : state) : Prop :=
  NoDup (map User.email (users st)).

(** ** Provisioning: [create_admin.py] *)

Definition ADMIN_EMAIL : string := "admin@flatprice.com".
Definition ADMIN_PASSWORD : string := "admin123".

(** The body of the script on an existing database: nothing when an
    admin has the default email, otherwise one new admin row whose
    password is the salted hash of the default password. The salt and the
    clock are what the run draws and reads. *)
Definition create_admin `{Collaborators} (salt : string) (clock : nat) (st : state) : state :=
  match first (admin_by_email ADMIN_EMAIL) (admins st) with
  | Some existing_admin => st
  | None =>
      let hashed_password := generate_password_hash salt ADMIN_PASSWORD in
      let admin :=
        Admin.mk (next_id (map Admin.id (admins st))) ADMIN_EMAIL hashed_password
                 "admin" clock in
      mkState (users st) (admins st ++ [admin]) (predictions st)
              (active_tokens st) (admin_tokens st)
  end.

(** A store with two users, three predictions and one session of each
    kind. *)
Definition sample_store : state :=
  mkState
    [User.mk 1 "u@x.org" "salt1$pw" false 1; User.mk 2 "v@x.org" "salt2$pw" true 2]
    [Admin.mk 1 "admin@flatprice.com" "salt$admin123" "admin" 0]
    [Prediction.mk 1 1 example_payload (4500000 # 1) false 10;
     Prediction.mk 2 2 example_payload (5200000 # 1) true 11;
     Prediction.mk 3 1 example_payload (3900000 # 1) false 12]
    {[ "usertok" := 1%nat ]}
    {[ "admintok" := 1%nat ]}.

Definition as_user (r : route) : request :=
  mkRequest r (Some "Bearer usertok") (ok example_payload) 20 "".

Definition as_admin (r : route) : request :=
  mkRequest r (Some "Bearer admintok") (ok JNull) 21 "".

(** * Properties *)

(** ** Builtins on concrete inputs *)

Example split_bearer : split " " "Bearer abc" = ["Bearer"; "abc"].
Proof. reflexivity. Qed.

Example split_no_space : split " " "Bearer" = ["Bearer"].
Proof. reflexivity. Qed.

Example split_double_space : split " " "Bearer  tok" = ["Bearer"; ""; "tok"].
Proof. reflexivity. Qed.

Example round2_exact_ties :
  round2_exact (1 # 8) = (3 # 25) /\ round2_exact (3 # 8) = (19 # 50).
Proof. split; reflexivity. Qed.

Section Coercions.
Context `{Collaborators}.

Example float_7500 : py_float (JStr "7500") = ok (7500 # 1).
Proof. reflexivity. Qed.

Example float_signed : py_float (JStr " -12 ") = ok ((-12) # 1).
Proof. reflexivity. Qed.

Example int_leading_zeros : py_int (JStr "007") = ok 7%Z.
Proof. reflexivity. Qed.

(** What is not a plain decimal literal is decided by the interpreter. *)
Example float_exponent : py_float (JStr "1e3") = float_of_literal "1e3".
Proof. reflexivity. Qed.

Example int_digit_group : py_int (JStr "4_0") = int_of_literal "4_0".
Proof. reflexivity. Qed.

Example int_fraction : py_int (JStr "4.7") = int_of_literal "4.7".
Proof. reflexivity. Qed.

Example float_inexact_int :
  py_float (JInt 9007199254740993) = float_of_int 9007199254740993.
Proof. reflexivity. Qed.

Example float_of_null : py_float JNull = raise (builtin_error "float" JNull).
Proof. reflexivity. Qed.
End Coercions.

(** ** The guards *)

Lemma extract_token_no_header req :
  authorization req = None ->
  extract_token req = inl (error "Token is missing" 401).
Proof. intros Hh. unfold extract_token. now rewrite Hh. Qed.

Lemma extract_token_no_segment req h :
  authorization req = Some h ->
  split " " h !! 1%nat = None ->
  extract_token req = inl (error "Invalid token format" 401).
Proof. intros Hh Hs. unfold extract_token. now rewrite Hh, Hs. Qed.

Lemma extract_token_empty req h :
  authorization req = Some h ->
  split " " h !! 1%nat = Some "" ->
  extract_token req = inl (error "Token is missing" 401).
Proof. intros Hh Hs. unfold extract_token. now rewrite Hh, Hs. Qed.

Lemma extract_token_segment req h t :
  authorization req = Some h ->
  split " " h !! 1%nat = Some t ->
  t <> "" ->
  extract_token req = inr t.
Proof.
  intros Hh Hs Hne. unfold extract_token. rewrite Hh, Hs.
  destruct (String.eqb_spec t ""); congruence.
Qed.

(** A token that passed the extraction is the non-empty second segment
    of the header that is present. *)
Lemma extract_token_inr req t :
  extract_token req = inr t ->
  exists h, authorization req = Some h /\ split " " h !! 1%nat = Some t /\ t <> "".
Proof.
  unfold extract_token. destruct (authorization req) as [h|]; [|discriminate].
  destruct (split " " h !! 1%nat) as [t'|] eqn:Hs; [|discriminate].
  destruct (String.eqb_spec t' "") as [|Hne]; [discriminate|].
  intros [= <-]. exists h. auto.
Qed.


(** A guard that rejects never calls the handler it wraps. *)
Lemma token_required_rejects f req st r :
  extract_token req = inl r -> token_required f req st = (r, st).
Proof. intros He. unfold token_required. now rewrite He. Qed.

Lemma admin_required_rejects f req st r :
  extract_token req = inl r -> admin_required f req st = (r, st).
Proof. intros He. unfold admin_required. now rewrite He. Qed.

Lemma token_required_accepts f req st t uid :
  extract_token req = inr t -> active_tokens st !! t = Some uid ->
  token_required f req st = f uid req st.
Proof. intros He Ht. unfold token_required. now rewrite He, Ht. Qed.

Lemma admin_required_accepts f req st t aid :
  extract_token req = inr t -> admin_tokens st !! t = Some aid ->
  admin_required f req st = f aid req st.
Proof. intros He Ht. unfold admin_required. now rewrite He, Ht. Qed.

(** C2, as amended: both guards reject, without calling the handler and
    without touching the state, a request with no Authorization header
    (missing token), a header with no second segment (malformed token),
    and a header whose second segment is a non-empty token absent from
    the guard's registry (invalid or expired token); the three carry
    status 401. *)
Theorem guards_reject_three_ways (f : nat -> handler) (req : request) (st : state) :
  (authorization req = None ->
   token_required f req st = (error "Token is missing" 401, st) /\
   admin_required f req st = (error "Token is missing" 401, st)) /\
  (forall h, authorization req = Some h -> split " " h !! 1%nat = None ->
   token_required f req st = (error "Invalid token format" 401, st) /\
   admin_required f req st = (error "Invalid token format" 401, st)) /\
  (forall h t, authorization req = Some h -> split " " h !! 1%nat = Some t ->
   t <> "" ->
   (active_tokens st !! t = None ->
    token_required f req st = (error "Invalid or expired token" 401, st)) /\
   (admin_tokens st !! t = None ->
    admin_required f req st = (error "Invalid or expired admin token" 401, st))).
Proof.
  split; [|split].
  - intros Hh. pose proof (extract_token_no_header _ Hh) as He.
    split; [apply token_required_rejects | apply admin_required_rejects]; exact He.
  - intros h Hh Hs. pose proof (extract_token_no_segment _ _ Hh Hs) as He.
    split; [apply token_required_rejects | apply admin_required_rejects]; exact He.
  - intros h t Hh Hs Hne. pose proof (extract_token_segment _ _ _ Hh Hs Hne) as He.
    split; intros Hreg.
    + unfold token_required. now rewrite He, Hreg.
    + unfold admin_required. now rewrite He, Hreg.
Qed.

Lemma guards_reject_three_ways_witness :
  let f : nat -> handler := fun _ _ st => (message "handler ran" 200, empty_state) in
  let st := set_active_tokens {[ "good" := 1%nat ]} empty_state in
  token_required f (mkRequest Me None (ok JNull) 0 "") st
    = (error "Token is missing" 401, st) /\
  admin_required f (mkRequest AdminMe (Some "Bearer") (ok JNull) 0 "") st
    = (error "Invalid token format" 401, st) /\
  token_required f (mkRequest Me (Some "Bearer stale") (ok JNull) 0 "") st
    = (error "Invalid or expired token" 401, st) /\
  admin_required f (mkRequest AdminMe (Some "Bearer good") (ok JNull) 0 "") st
    = (error "Invalid or expired admin token" 401, st).
Proof.
  intros f st. split; [|split; [|split]].
  - apply (guards_reject_three_ways f (mkRequest Me None (ok JNull) 0 "") st).
    reflexivity.
  - apply (proj1 (proj2 (guards_reject_three_ways f
             (mkRequest AdminMe (Some "Bearer") (ok JNull) 0 "") st)) "Bearer");
      reflexivity.
  - apply (proj2 (proj2 (guards_reject_three_ways f
             (mkRequest Me (Some "Bearer stale") (ok JNull) 0 "") st))
             "Bearer stale" "stale"); [reflexivity | reflexivity | discriminate |].
    vm_compute. reflexivity.
  - apply (proj2 (proj2 (guards_reject_three_ways f
             (mkRequest AdminMe (Some "Bearer good") (ok JNull) 0 "") st))
             "Bearer good" "good"); [reflexivity | reflexivity | discriminate |].
    vm_compute. reflexivity.
Defined.

(** C2 as stated fails on the empty token: the header "Bearer " has a
    second segment, the token extracted from it is in neither registry,
    and both guards answer "Token is missing" rather than the
    invalid-or-expired error. *)
Lemma empty_token_is_not_reported_invalid :
  let f : nat -> handler := fun _ _ st => (message "handler ran" 200, st) in
  let req := mkRequest Me (Some "Bearer ") (ok JNull) 0 "" in
  exists t,
    split " " "Bearer " !! 1%nat = Some t /\
    active_tokens empty_state !! t = None /\
    admin_tokens empty_state !! t = None /\
    token_required f req empty_state = (error "Token is missing" 401, empty_state) /\
    admin_required f req empty_state = (error "Token is missing" 401, empty_state) /\
    fst (token_required f req empty_state) <> error "Invalid or expired token" 401 /\
    fst (admin_required f req empty_state) <> error "Invalid or expired admin token" 401.
Proof.
  intros f req. exists "".
  split; [reflexivity|]. split; [reflexivity|]. split; [reflexivity|].
  split; [reflexivity|]. split; [reflexivity|].
  split; vm_compute; discriminate.
Qed.

(** C10: when the second segment of the Authorization header is the
    empty string, both guards answer "Token is missing" with status 401,
    whatever the registries hold, and the handler is not called. *)
Theorem empty_segment_is_missing_token
  (f : nat -> handler) (req : request) (st : state) (h : string) :
  authorization req = Some h ->
  split " " h !! 1%nat = Some "" ->
  token_required f req st = (error "Token is missing" 401, st) /\
  admin_required f req st = (error "Token is missing" 401, st).
Proof.
  intros Hh Hs. pose proof (extract_token_empty _ _ Hh Hs) as He.
  split; [apply token_required_rejects | apply admin_required_rejects]; exact He.
Qed.

Lemma empty_segment_is_missing_token_witness :
  let f : nat -> handler := fun _ _ st => (message "handler ran" 200, empty_state) in
  let st := set_active_tokens {[ "tok" := 1%nat ]} empty_state in
  (token_required f (mkRequest Me (Some "Bearer ") (ok JNull) 0 "") st
     = (error "Token is missing" 401, st) /\
   admin_required f (mkRequest Me (Some "Bearer ") (ok JNull) 0 "") st
     = (error "Token is missing" 401, st)) /\
  (token_required f (mkRequest Me (Some "Bearer  tok") (ok JNull) 0 "") st
     = (error "Token is missing" 401, st) /\
   admin_required f (mkRequest Me (Some "Bearer  tok") (ok JNull) 0 "") st
     = (error "Token is missing" 401, st)).
Proof.
  intros f st. split.
  - apply (empty_segment_is_missing_token f _ st "Bearer "); reflexivity.
  - apply (empty_segment_is_missing_token f _ st "Bearer  tok"); reflexivity.
Defined.

(** ** Sessions *)

Section Sessions.
Context `{Collaborators}.

Lemma logout_effect uid req st h t :
  authorization req = Some h -> split " " h !! 1%nat = Some t ->
  logout uid req st =
    (message "Logged out successfully" 200,
     match active_tokens st !! t with
     | Some _ => set_active_tokens (delete t (active_tokens st)) st
     | None => st
     end).
Proof.
  intros Hh Hs. unfold logout, header, second_segment.
  rewrite Hh. cbn [bind ok]. now rewrite Hs.
Qed.

Lemma admin_logout_effect aid req st h t :
  authorization req = Some h -> split " " h !! 1%nat = Some t ->
  admin_logout aid req st =
    (message "Admin logged out successfully" 200,
     match admin_tokens st !! t with
     | Some _ => set_admin_tokens (delete t (admin_tokens st)) st
     | None => st
     end).
Proof.
  intros Hh Hs. unfold admin_logout, header, second_segment.
  rewrite Hh. cbn [bind ok]. now rewrite Hs.
Qed.

(** C9: a logout presenting a token leaves the other registry as it
    was, leaves every other token of its own registry resolving to the
    same principal, and leaves the presented token, when it is not
    empty, resolving to nothing; the same holds for the admin logout
    with the two registries exchanged. *)
Theorem logout_revokes_only_presented_token
  (req : request) (st : state) (h tok : string) :
  authorization req = Some h ->
  split " " h !! 1%nat = Some tok ->
  (path req = Logout ->
   admin_tokens (app req st).2 = admin_tokens st /\
   (forall t, t <> tok -> active_tokens (app req st).2 !! t = active_tokens st !! t) /\
   (tok <> "" -> active_tokens (app req st).2 !! tok = None)) /\
  (path req = AdminLogout ->
   active_tokens (app req st).2 = active_tokens st /\
   (forall t, t <> tok -> admin_tokens (app req st).2 !! t = admin_tokens st !! t) /\
   (tok <> "" -> admin_tokens (app req st).2 !! tok = None)).
Proof.
  intros Hh Hs. split; intros Hp; unfold app; rewrite Hp.
  - destruct (String.eqb_spec tok "") as [->|Hne].
    + rewrite (token_required_rejects _ _ _ _ (extract_token_empty _ _ Hh Hs)).
      simpl. repeat split; auto; congruence.
    + unfold token_required. rewrite (extract_token_segment _ _ _ Hh Hs Hne).
      destruct (active_tokens st !! tok) as [uid|] eqn:Ht.
      * rewrite (logout_effect _ _ _ _ _ Hh Hs), Ht. simpl.
        split; [reflexivity|]. split.
        -- intros t Hn. now apply lookup_delete_ne.
        -- intros _. apply lookup_delete_eq.
      * simpl. auto.
  - destruct (String.eqb_spec tok "") as [->|Hne].
    + rewrite (admin_required_rejects _ _ _ _ (extract_token_empty _ _ Hh Hs)).
      simpl. repeat split; auto; congruence.
    + unfold admin_required. rewrite (extract_token_segment _ _ _ Hh Hs Hne).
      destruct (admin_tokens st !! tok) as [aid|] eqn:Ht.
      * rewrite (admin_logout_effect _ _ _ _ _ Hh Hs), Ht. simpl.
        split; [reflexivity|]. split.
        -- intros t Hn. now apply lookup_delete_ne.
        -- intros _. apply lookup_delete_eq.
      * simpl. auto.
Qed.
End Sessions.

Lemma logout_revokes_only_presented_token_witness :
  let st := mkState [] [] [] {[ "a" := 1%nat; "b" := 2%nat; "c" := 1%nat ]}
                    {[ "a" := 7%nat; "r" := 8%nat ]} in
  let req := mkRequest Logout (Some "Bearer a") (ok JNull) 0 "" in
  let st' := (@app sample_collaborators req st).2 in
  admin_tokens st' = admin_tokens st /\
  (forall t, t <> "a" -> active_tokens st' !! t = active_tokens st !! t) /\
  ("a" <> "" -> active_tokens st' !! "a" = None).
Proof.
  intros st req st'.
  apply (proj1 (@logout_revokes_only_presented_token sample_collaborators
                  req st "Bearer a" "a" eq_refl eq_refl)).
  reflexivity.
Defined.

(** ** Ownership *)

Lemma first_none_iff {A} (p : A -> bool) (rows : list A) :
  first p rows = None <-> forall x, In x rows -> p x = false.
Proof.
  unfold first. split.
  - intros Hn x Hx. exact (find_none p rows Hn x Hx).
  - induction rows as [|y rows IH]; intros Hall; simpl; [reflexivity|].
    rewrite (Hall y (or_introl eq_refl)). apply IH.
    intros x Hx. apply Hall. now right.
Qed.

Lemma unique_key_inj {A} (key : A -> nat) (rows : list A) (x y : A) :
  NoDup (map key rows) -> In x rows -> In y rows -> key x = key y -> x = y.
Proof.
  induction rows as [|z rows IH]; simpl; [tauto|].
  rewrite NoDup_cons. intros [Hz Hnd] [->|Hx] [->|Hy] Hk; auto.
  - exfalso. apply Hz. rewrite Hk. apply list_elem_of_In. now apply in_map.
  - exfalso. apply Hz. rewrite <- Hk. apply list_elem_of_In. now apply in_map.
Qed.

Lemma not_owner_not_found (rows : list Prediction.t) (p : Prediction.t) (a : nat) :
  NoDup (map Prediction.id rows) -> In p rows -> Prediction.user_id p <> a ->
  first (by_id_and_owner (Prediction.id p) a) rows = None.
Proof.
  intros Hnd Hp Hne. apply first_none_iff. intros q Hq. unfold by_id_and_owner.
  destruct (Nat.eqb_spec (Prediction.id q) (Prediction.id p)) as [Hid|]; [|reflexivity].
  rewrite (unique_key_inj _ _ _ _ Hnd Hq Hp Hid). simpl.
  now apply Nat.eqb_neq.
Qed.

Lemma absent_id_not_found (rows : list Prediction.t) (j a : nat) :
  (forall q, In q rows -> Prediction.id q = j -> Prediction.user_id q <> a) ->
  first (by_id_and_owner j a) rows = None.
Proof.
  intros Hj. apply first_none_iff. intros q Hq. unfold by_id_and_owner.
  destruct (Nat.eqb_spec (Prediction.id q) j) as [Hid|]; [|reflexivity].
  simpl. apply Nat.eqb_neq. now apply Hj.
Qed.

Section Ownership.
Context `{Collaborators}.

Lemma delete_history_not_found uid id req st :
  first (by_id_and_owner id uid) (predictions st) = None ->
  delete_history uid id req st = (error "Prediction not found" 404, st).
Proof. intros Hn. unfold delete_history. now rewrite Hn. Qed.

Lemma toggle_favorite_not_found uid id req st :
  first (by_id_and_owner id uid) (predictions st) = None ->
  toggle_favorite uid id req st = (error "Prediction not found" 404, st).
Proof. intros Hn. unfold toggle_favorite. now rewrite Hn. Qed.

(** C1: for distinct users A and B, a delete or favorite-toggle of a
    prediction owned by B, sent with a token of A, is answered with
    status 404 and the body [{"error": "Prediction not found"}], the
    same answer as for an id [j] that is in neither user's records,
    and the whole state, B's record included, is left as it was. *)
Theorem cross_user_request_is_not_found
  (st : state) (a b j : nat) (p : Prediction.t)
  (auth tok : string) (payload : py json) (clock : nat) (r : string) :
  unique_prediction_ids st ->
  In p (predictions st) ->
  Prediction.user_id p = b ->
  a <> b ->
  (forall q, In q (predictions st) -> Prediction.id q = j ->
             Prediction.user_id q <> a /\ Prediction.user_id q <> b) ->
  split " " auth !! 1%nat = Some tok ->
  tok <> "" ->
  active_tokens st !! tok = Some a ->
  let send := fun target => app (mkRequest target (Some auth) payload clock r) st in
  send (DeleteHistory (Prediction.id p)) = (error "Prediction not found" 404, st) /\
  send (DeleteHistory j) = (error "Prediction not found" 404, st) /\
  send (ToggleFavorite (Prediction.id p)) = (error "Prediction not found" 404, st) /\
  send (ToggleFavorite j) = (error "Prediction not found" 404, st).
Proof.
  intros Hnd Hp Hb Hab Hj Hs Hne Ht send.
  assert (Hown : first (by_id_and_owner (Prediction.id p) a) (predictions st) = None).
  { apply not_owner_not_found; [exact Hnd | exact Hp | congruence]. }
  assert (Habs : first (by_id_and_owner j a) (predictions st) = None).
  { apply absent_id_not_found. intros q Hq Hid. now apply (Hj q Hq Hid). }
  assert (He : forall target,
             extract_token (mkRequest target (Some auth) payload clock r) = inr tok).
  { intros target. now apply (extract_token_segment _ auth). }
  unfold send, app; cbn [path].
  repeat split;
    rewrite (token_required_accepts _ _ _ _ _ (He _) Ht);
    (apply delete_history_not_found || apply toggle_favorite_not_found);
    assumption.
Qed.
End Ownership.

Lemma cross_user_request_is_not_found_witness :
  let theirs := Prediction.mk 1 2 example_payload (4500000 # 1) false 10 in
  let mine := Prediction.mk 2 1 example_payload (4500000 # 1) true 11 in
  let st := mkState [] [] [theirs; mine] {[ "alice" := 1%nat; "bob" := 2%nat ]} ∅ in
  let send := fun target =>
    @app sample_collaborators (mkRequest target (Some "Bearer alice") (ok JNull) 12 "") st in
  send (DeleteHistory 1) = (error "Prediction not found" 404, st) /\
  send (DeleteHistory 9) = (error "Prediction not found" 404, st) /\
  send (ToggleFavorite 1) = (error "Prediction not found" 404, st) /\
  send (ToggleFavorite 9) = (error "Prediction not found" 404, st).
Proof.
  intros theirs mine st send.
  apply (@cross_user_request_is_not_found sample_collaborators
           st 1 2 9 theirs "Bearer alice" "alice" (ok JNull) 12 "").
  - unfold unique_prediction_ids. simpl.
    apply NoDup_cons. split; [intros Hin; apply list_elem_of_In in Hin; simpl in Hin; lia|].
    apply NoDup_cons. split; [intros Hin; apply list_elem_of_In in Hin; simpl in Hin; tauto|].
    constructor.
  - simpl. now left.
  - reflexivity.
  - lia.
  - simpl. intros q [<-|[<-|[]]]; simpl; lia.
  - reflexivity.
  - discriminate.
  - reflexivity.
Defined.

(** ** Inference adapter *)

Lemma lower_ascii_y c : lower_ascii c = "y"%char -> c = "y"%char \/ c = "Y"%char.
Proof.
  destruct c as [[] [] [] [] [] [] [] []]; vm_compute; intros E;
    first [discriminate E | now left | now right].
Qed.

Lemma lower_ascii_e c : lower_ascii c = "e"%char -> c = "e"%char \/ c = "E"%char.
Proof.
  destruct c as [[] [] [] [] [] [] [] []]; vm_compute; intros E;
    first [discriminate E | now left | now right].
Qed.

Lemma lower_ascii_s c : lower_ascii c = "s"%char -> c = "s"%char \/ c = "S"%char.
Proof.
  destruct c as [[] [] [] [] [] [] [] []]; vm_compute; intros E;
    first [discriminate E | now left | now right].
Qed.

Lemma lower_yes s : lower s = "yes" <-> In s yes_spellings.
Proof.
  split.
  - destruct s as [|c1 [|c2 [|c3 [|c4 s]]]]; simpl; try discriminate.
    intros [= H1 H2 H3].
    destruct (lower_ascii_y _ H1) as [-> | ->],
             (lower_ascii_e _ H2) as [-> | ->],
             (lower_ascii_s _ H3) as [-> | ->]; tauto.
  - simpl. intros Hin.
    repeat (destruct Hin as [<- | Hin]; [reflexivity|]). destruct Hin.
Qed.

Lemma yn_one_iff x : yn x = 1%Z <-> exists s, x = JStr s /\ In s yes_spellings.
Proof.
  split.
  - destruct x as [| | | |s| |]; simpl; try discriminate.
    destruct (String.eqb_spec (lower s) "yes") as [Hl|]; [|discriminate].
    intros _. exists s. split; [reflexivity | now apply lower_yes].
  - intros (s & -> & Hin). simpl. apply lower_yes in Hin. now rewrite Hin.
Qed.

Lemma yn_zero_or_one x : yn x = 1%Z \/ yn x = 0%Z.
Proof.
  destruct x as [| | | |s| |]; simpl; auto.
  destruct (String.eqb (lower s) "yes"); auto.
Qed.

Ltac bind_inv H :=
  match type of H with
  | bind ?m _ = ok _ =>
      let E := fresh "E" in
      destruct m eqn:E; cbn [bind] in H; [discriminate H|]
  end.

Section Adapter.
Context `{Collaborators}.

Lemma float_field_inv data key n :
  float_field data key = inr n ->
  exists q, (x <-! getitem data key; py_float x) = ok q /\ n = NFloat q.
Proof.
  unfold float_field. destruct (getitem data key) as [|x]; [discriminate|]. cbn [bind].
  destruct (py_float x) as [|q]; [discriminate|]. cbn. intros [= <-]. eauto.
Qed.

Lemma int_field_inv data key n :
  int_field data key = inr n ->
  exists z, (x <-! getitem data key; py_int x) = ok z /\ n = NInt z.
Proof.
  unfold int_field. destruct (getitem data key) as [|x]; [discriminate|]. cbn [bind].
  destruct (py_int x) as [|z]; [discriminate|]. cbn. intros [= <-]. eauto.
Qed.

Lemma yn_field_inv data key n :
  yn_field data key = inr n ->
  exists x, getitem data key = ok x /\ n = NInt (yn x).
Proof.
  unfold yn_field. destruct (getitem data key) as [|x]; [discriminate|]. cbn.
  intros [= <-]. eauto.
Qed.

(** A translation that succeeds has read each of the twelve fields off
    the payload, coerced it by its rule, and put the results in the
    order of the features. *)
Lemma translate_reads_payload classes data v :
  translate classes data = ok v ->
  exists area bedrooms bathrooms stories parking code,
    (x <-! getitem data "area"; py_float x) = ok area /\
    (x <-! getitem data "bedrooms"; py_int x) = ok bedrooms /\
    (x <-! getitem data "bathrooms"; py_int x) = ok bathrooms /\
    (x <-! getitem data "stories"; py_int x) = ok stories /\
    (x <-! getitem data "parking"; py_int x) = ok parking /\
    (x <-! getitem data "furnishingstatus"; transform classes x) = ok code /\
    exists mainroad guestroom basement hotwaterheating airconditioning prefarea,
      getitem data "mainroad" = ok mainroad /\
      getitem data "guestroom" = ok guestroom /\
      getitem data "basement" = ok basement /\
      getitem data "hotwaterheating" = ok hotwaterheating /\
      getitem data "airconditioning" = ok airconditioning /\
      getitem data "prefarea" = ok prefarea /\
      v = [NFloat area; NInt bedrooms; NInt bathrooms; NInt stories;
           NInt (yn mainroad); NInt (yn guestroom); NInt (yn basement);
           NInt (yn hotwaterheating); NInt (yn airconditioning);
           NInt parking; NInt (yn prefarea); NInt code].
Proof.
  unfold translate. intros Hv. repeat bind_inv Hv.
  repeat match goal with
         | E : float_field _ _ = inr _ |- _ =>
             apply float_field_inv in E; destruct E as (? & ? & ->)
         | E : int_field _ _ = inr _ |- _ =>
             apply int_field_inv in E; destruct E as (? & ? & ->)
         | E : yn_field _ _ = inr _ |- _ =>
             apply yn_field_inv in E; destruct E as (? & ? & ->)
         end.
  match goal with
  | E : bind (getitem data "furnishingstatus") _ = inr _ |- _ =>
      destruct (getitem data "furnishingstatus") as [|item] eqn:Eg;
      cbn [bind] in E; [discriminate E|];
      destruct (transform classes item) as [|code] eqn:Et;
      cbn [bind ok] in E; [discriminate E|]; injection E as <-
  end.
  injection Hv as <-.
  eexists _, _, _, _, _, code.
  repeat (split; [eassumption|]).
  eexists _, _, _, _, _, _.
  repeat (split; [eassumption|]). reflexivity.
Qed.

(** C7: on the payload of the spec's example the vector is
    [7500.0, 4, 2, 2, 1, 0, 1, 0, 1, 2, 1, e], with [e] the code the
    encoder gives to "semi-furnished", and it is the vector the model
    is called on. For every payload, the vector of a translation that
    succeeds is read off the payload field by field in the order of the
    features, each binary field through [yn]; it is the same whatever
    the request, the user and the state, and it is the vector the model
    is called on; the translation gives one result per payload; and
    [yn] is 1 exactly for a string spelling "yes" in any case, and 0
    for anything else. *)
Theorem example_payload_vector (e : Z) (uid : nat) (req : request) (st : state) :
  transform furnishing_classes (JStr "semi-furnished") = ok e ->
  json_body req = ok example_payload ->
  translate furnishing_classes example_payload = ok (example_vector e) /\
  predict uid req st =
    catch st
      (price <-! model_predict (example_vector e);
       ok (jsonify
             [("predicted_price", JFloat (round2 price));
              ("prediction_id",
               JInt (Z.of_nat (next_id (map Prediction.id (predictions st)))))] 200,
           set_predictions
             (predictions st ++
              [Prediction.mk (next_id (map Prediction.id (predictions st))) uid
                             example_payload (round2 price) false (now req)]) st)) /\
  (forall data v1 v2,
      translate furnishing_classes data = ok v1 ->
      translate furnishing_classes data = ok v2 -> v1 = v2) /\
  (forall x, (yn x = 1%Z <-> exists s, x = JStr s /\ In s yes_spellings) /\
             (yn x = 1%Z \/ yn x = 0%Z)) /\
  (forall data v,
      translate furnishing_classes data = ok v ->
      exists area bedrooms bathrooms stories parking code,
        (x <-! getitem data "area"; py_float x) = ok area /\
        (x <-! getitem data "bedrooms"; py_int x) = ok bedrooms /\
        (x <-! getitem data "bathrooms"; py_int x) = ok bathrooms /\
        (x <-! getitem data "stories"; py_int x) = ok stories /\
        (x <-! getitem data "parking"; py_int x) = ok parking /\
        (x <-! getitem data "furnishingstatus"; transform furnishing_classes x) = ok code /\
        exists mainroad guestroom basement hotwaterheating airconditioning prefarea,
          getitem data "mainroad" = ok mainroad /\
          getitem data "guestroom" = ok guestroom /\
          getitem data "basement" = ok basement /\
          getitem data "hotwaterheating" = ok hotwaterheating /\
          getitem data "airconditioning" = ok airconditioning /\
          getitem data "prefarea" = ok prefarea /\
          v = [NFloat area; NInt bedrooms; NInt bathrooms; NInt stories;
               NInt (yn mainroad); NInt (yn guestroom); NInt (yn basement);
               NInt (yn hotwaterheating); NInt (yn airconditioning);
               NInt parking; NInt (yn prefarea); NInt code]) /\
  (forall data v uid' req' st',
      json_body req' = ok data ->
      translate furnishing_classes data = ok v ->
      predict uid' req' st' =
        catch st'
          (price <-! model_predict v;
           ok (jsonify
                 [("predicted_price", JFloat (round2 price));
                  ("prediction_id",
                   JInt (Z.of_nat (next_id (map Prediction.id (predictions st')))))] 200,
               set_predictions
                 (predictions st' ++
                  [Prediction.mk (next_id (map Prediction.id (predictions st'))) uid'
                                 data (round2 price) false (now req')]) st'))).
Proof.
  intros He Hb.
  assert (Ht : translate furnishing_classes example_payload = ok (example_vector e)).
  { unfold translate, example_payload.
    cbn [float_field int_field yn_field getitem assoc String.eqb Ascii.eqb Bool.eqb
         bind ok].
    rewrite He. reflexivity. }
  assert (Hcall : forall data v uid' req' st',
             json_body req' = ok data ->
             translate furnishing_classes data = ok v ->
             predict uid' req' st' =
               catch st'
                 (price <-! model_predict v;
                  ok (jsonify
                        [("predicted_price", JFloat (round2 price));
                         ("prediction_id",
                          JInt (Z.of_nat (next_id (map Prediction.id (predictions st')))))]
                        200,
                      set_predictions
                        (predictions st' ++
                         [Prediction.mk (next_id (map Prediction.id (predictions st')))
                                        uid' data (round2 price) false (now req')]) st'))).
  { intros data v uid' req' st' Hbody Hv. unfold predict.
    rewrite Hbody. cbn [bind ok]. rewrite Hv. reflexivity. }
  split; [exact Ht|].
  split; [exact (Hcall _ _ uid req st Hb Ht)|].
  split; [intros data v1 v2 H1 H2; rewrite H1 in H2; now injection H2|].
  split; [intros x; split; [apply yn_one_iff | apply yn_zero_or_one]|].
  split; [intros data v Hv; now apply translate_reads_payload | exact Hcall].
Qed.
End Adapter.

Lemma example_payload_vector_witness :
  let req := mkRequest Predict (Some "Bearer t") (ok example_payload) 5 "" in
  @translate sample_collaborators (@furnishing_classes sample_collaborators) example_payload
    = ok (example_vector 1) /\
  yn (JStr "YeS") = 1%Z /\ yn (JStr "no") = 0%Z /\ yn (JBool true) = 0%Z.
Proof.
  intros req.
  pose proof (@example_payload_vector sample_collaborators 1 1 req empty_state
                eq_refl eq_refl) as (Ht & _ & _ & Hyn & _).
  split; [exact Ht|]. split; [|split].
  - apply (proj1 (Hyn (JStr "YeS"))). exists "YeS". split; [reflexivity|].
    simpl. tauto.
  - destruct (proj2 (Hyn (JStr "no"))) as [H1|H0]; [|exact H0].
    apply (proj1 (Hyn (JStr "no"))) in H1. destruct H1 as (s & [= <-] & Hin).
    simpl in Hin. exfalso.
    repeat (destruct Hin as [Hin|Hin]; [discriminate Hin|]). exact Hin.
  - destruct (proj2 (Hyn (JBool true))) as [H1|H0]; [|exact H0].
    apply (proj1 (Hyn (JBool true))) in H1. destruct H1 as (s & Hs & _).
    discriminate Hs.
Defined.

(** ** Failures of translation and inference *)

Section Failures.
Context `{Collaborators}.

(** A translation that succeeds has read and coerced each of the twelve
    fields. *)
Lemma translate_ok_inv classes data v :
  translate classes data = ok v ->
  (exists a, float_field data "area" = ok a) /\
  (forall key, In key ["bedrooms"; "bathrooms"; "stories"; "parking"] ->
               exists n, int_field data key = ok n) /\
  (forall key, In key ["mainroad"; "guestroom"; "basement"; "hotwaterheating";
                       "airconditioning"; "prefarea"] ->
               exists b, yn_field data key = ok b) /\
  (exists x code, getitem data "furnishingstatus" = ok x /\ transform classes x = ok code).
Proof.
  unfold translate. intros Hv. repeat bind_inv Hv.
  split; [eauto|]. split; [|split].
  - simpl. intros key Hk. repeat (destruct Hk as [<- | Hk]; [eauto|]). destruct Hk.
  - simpl. intros key Hk. repeat (destruct Hk as [<- | Hk]; [eauto|]). destruct Hk.
  - match goal with
    | E : bind (getitem data "furnishingstatus") _ = inr _ |- _ =>
        destruct (getitem data "furnishingstatus") as [|x] eqn:Eg;
        cbn [bind] in E; [discriminate E|];
        destruct (transform classes x) as [|code] eqn:Et;
        cbn [bind] in E; [discriminate E|]
    end.
    eauto.
Qed.

Lemma not_ok_raises {A} (m : py A) : (forall v, m <> ok v) -> exists e, m = raise e.
Proof. destruct m as [e|v]; [eauto|]. intros Hn. now destruct (Hn v). Qed.

(** X25: A payload object that lacks one of the twelve feature keys makes the
    translation raise. *)
Lemma translate_missing_key classes fields key :
  In key ["area"; "bedrooms"; "bathrooms"; "stories"; "mainroad"; "guestroom";
          "basement"; "hotwaterheating"; "airconditioning"; "parking"; "prefarea";
          "furnishingstatus"] ->
  assoc key fields = None ->
  exists e, translate classes (JObj fields) = raise e.
Proof.
  intros Hk Hnone. apply not_ok_raises. intros v Hv.
  apply translate_ok_inv in Hv. destruct Hv as ((a & Ha) & Hint & Hyn & (x & c & Hx & _)).
  simpl in Hk.
  destruct Hk as [<-|[<-|[<-|[<-|[<-|[<-|[<-|[<-|[<-|[<-|[<-|[<-|[]]]]]]]]]]]]].
  - unfold float_field, getitem in Ha. rewrite Hnone in Ha. discriminate Ha.
  - destruct (Hint "bedrooms") as [n Hn]; [simpl; tauto|].
    unfold int_field, getitem in Hn. rewrite Hnone in Hn. discriminate Hn.
  - destruct (Hint "bathrooms") as [n Hn]; [simpl; tauto|].
    unfold int_field, getitem in Hn. rewrite Hnone in Hn. discriminate Hn.
  - destruct (Hint "stories") as [n Hn]; [simpl; tauto|].
    unfold int_field, getitem in Hn. rewrite Hnone in Hn. discriminate Hn.
  - destruct (Hyn "mainroad") as [n Hn]; [simpl; tauto|].
    unfold yn_field, getitem in Hn. rewrite Hnone in Hn. discriminate Hn.
  - destruct (Hyn "guestroom") as [n Hn]; [simpl; tauto|].
    unfold yn_field, getitem in Hn. rewrite Hnone in Hn. discriminate Hn.
  - destruct (Hyn "basement") as [n Hn]; [simpl; tauto|].
    unfold yn_field, getitem in Hn. rewrite Hnone in Hn. discriminate Hn.
  - destruct (Hyn "hotwaterheating") as [n Hn]; [simpl; tauto|].
    unfold yn_field, getitem in Hn. rewrite Hnone in Hn. discriminate Hn.
  - destruct (Hyn "airconditioning") as [n Hn]; [simpl; tauto|].
    unfold yn_field, getitem in Hn. rewrite Hnone in Hn. discriminate Hn.
  - destruct (Hint "parking") as [n Hn]; [simpl; tauto|].
    unfold int_field, getitem in Hn. rewrite Hnone in Hn. discriminate Hn.
  - destruct (Hyn "prefarea") as [n Hn]; [simpl; tauto|].
    unfold yn_field, getitem in Hn. rewrite Hnone in Hn. discriminate Hn.
  - unfold getitem in Hx. rewrite Hnone in Hx. discriminate Hx.
Qed.

Lemma translate_bad_area classes data x e0 :
  getitem data "area" = ok x -> py_float x = raise e0 ->
  exists e, translate classes data = raise e.
Proof.
  intros Hx Hf. apply not_ok_raises. intros v Hv.
  apply translate_ok_inv in Hv. destruct Hv as ((a & Ha) & _).
  unfold float_field in Ha. rewrite Hx in Ha. cbn [bind ok] in Ha.
  rewrite Hf in Ha. discriminate Ha.
Qed.

Lemma translate_bad_integer classes data key x e0 :
  In key ["bedrooms"; "bathrooms"; "stories"; "parking"] ->
  getitem data key = ok x -> py_int x = raise e0 ->
  exists e, translate classes data = raise e.
Proof.
  intros Hk Hx Hf. apply not_ok_raises. intros v Hv.
  apply translate_ok_inv in Hv. destruct Hv as (_ & Hint & _).
  destruct (Hint key Hk) as [n Hn].
  unfold int_field in Hn. rewrite Hx in Hn. cbn [bind ok] in Hn.
  rewrite Hf in Hn. discriminate Hn.
Qed.

(** X26: A furnishing status that is not one of the encoder's classes makes
    the translation raise; there is no default category. *)
Lemma translate_unseen_category classes data s :
  getitem data "furnishingstatus" = ok (JStr s) -> ~ In s classes ->
  exists e, translate classes data = raise e.
Proof.
  intros Hx Hnot. apply not_ok_raises. intros v Hv.
  apply translate_ok_inv in Hv. destruct Hv as (_ & _ & _ & (x & c & Hx' & Hc)).
  rewrite Hx in Hx'. injection Hx' as <-. unfold transform in Hc.
  destruct (index_of s classes) as [i|] eqn:Ei; [|discriminate Hc].
  apply Hnot. clear Hc Hx. revert i Ei.
  induction classes as [|c' classes IH]; simpl; [discriminate|].
  intros i. destruct (String.eqb_spec s c') as [->|Hne]; [now left|].
  destruct (index_of s classes) as [k|]; [|discriminate].
  intros _. right. apply (IH (fun Hin => Hnot (or_intror Hin)) k eq_refl).
Qed.

Lemma predict_raises uid req st data e :
  json_body req = ok data ->
  translate furnishing_classes data = raise e \/
  (exists v, translate furnishing_classes data = ok v /\ model_predict v = raise e) ->
  predict uid req st = (error (str_exn e) 400, st).
Proof.
  intros Hb Hf. unfold predict. rewrite Hb. cbn [bind ok].
  destruct Hf as [Ht | (v & Ht & Hm)]; rewrite Ht; cbn [bind ok raise].
  - reflexivity.
  - rewrite Hm. reflexivity.
Qed.

(** C4: when the translation of the payload or the inference raises,
    an authenticated POST /predict is answered with status 400 and the
    body [{"error": str(e)}], and the state, the prediction table
    included, is the one before the request. *)
Theorem failed_predict_writes_nothing
  (req : request) (st : state) (tok : string) (uid : nat) (data : json) (e : exn) :
  path req = Predict ->
  extract_token req = inr tok ->
  active_tokens st !! tok = Some uid ->
  json_body req = ok data ->
  translate furnishing_classes data = raise e \/
  (exists v, translate furnishing_classes data = ok v /\ model_predict v = raise e) ->
  app req st = (error (str_exn e) 400, st) /\
  status (app req st).1 = 400%nat /\
  predictions (app req st).2 = predictions st.
Proof.
  intros Hp He Ht Hb Hf.
  assert (Happ : app req st = (error (str_exn e) 400, st)).
  { unfold app. rewrite Hp. rewrite (token_required_accepts _ _ _ _ _ He Ht).
    now apply (predict_raises uid req st data). }
  rewrite Happ. auto.
Qed.
End Failures.

Lemma failed_predict_writes_nothing_witness :
  let st := mkState [User.mk 1 "u@x.org" "salt$pw" false 0] [] []
                    {[ "tok" := 1%nat ]} ∅ in
  let data := JObj [("area", JStr "7500"); ("bathrooms", JInt 2)] in
  let req := mkRequest Predict (Some "Bearer tok") (ok data) 3 "" in
  @app sample_collaborators req st = (error "'bedrooms'" 400, st) /\
  status (@app sample_collaborators req st).1 = 400%nat /\
  predictions (@app sample_collaborators req st).2 = predictions st.
Proof.
  intros st data req.
  apply (@failed_predict_writes_nothing sample_collaborators req st "tok" 1 data
           (KeyError "bedrooms"));
    try reflexivity.
  left. reflexivity.
Defined.

(** ** Statistics *)

Section Statistics.
Context `{Collaborators}.

(** Without the guard on the list, each of the three aggregates raises
    on an empty table. *)
Lemma aggregates_raise_on_empty :
  py_truediv (py_sum []) (@length Prediction.t []) = raise (ZeroDivisionError "division by zero") /\
  py_max [] = raise (ValueError "max() arg is an empty sequence") /\
  py_min [] = raise (ValueError "min() arg is an empty sequence").
Proof. repeat split. Qed.


(** C6: with no prediction stored, GET /admin/stats answers 200 with
    [avg_price], [max_price] and [min_price] all 0 and a prediction
    count of 0; the division and the two reductions are not
    evaluated, so nothing raises, and the state is unchanged. *)
Theorem stats_on_empty_store
  (req : request) (st : state) (tok : string) (aid : nat) :
  path req = AdminStats ->
  extract_token req = inr tok ->
  admin_tokens st !! tok = Some aid ->
  predictions st = [] ->
  app req st =
    (jsonify
       [("total_users", JInt (Z.of_nat (length (users st))));
        ("total_predictions", JInt 0);
        ("avg_price", JInt 0);
        ("max_price", JInt 0);
        ("min_price", JInt 0);
        ("recent_users_count",
         JInt (Z.of_nat (length (take 5 (order_by_desc User.created_at (users st))))));
        ("recent_predictions_count", JInt 0)] 200, st).
Proof.
  intros Hp He Ht Hnil. unfold app. rewrite Hp.
  rewrite (admin_required_accepts _ _ _ _ _ He Ht).
  unfold get_statistics. rewrite Hnil. reflexivity.
Qed.
End Statistics.

Lemma stats_on_empty_store_witness :
  let st := mkState [User.mk 1 "u@x.org" "salt$pw" false 0] [] [] ∅ {[ "root" := 1%nat ]} in
  let req := mkRequest AdminStats (Some "Bearer root") (ok JNull) 3 "" in
  @app sample_collaborators req st =
    (jsonify
       [("total_users", JInt 1); ("total_predictions", JInt 0);
        ("avg_price", JInt 0); ("max_price", JInt 0); ("min_price", JInt 0);
        ("recent_users_count", JInt 1); ("recent_predictions_count", JInt 0)] 200, st).
Proof.
  intros st req.
  apply (@stats_on_empty_store sample_collaborators req st "root" 1);
    reflexivity.
Defined.

(** ** Deleting a user *)

Lemma In_insert_desc {A} (key : A -> nat) (x y : A) (l : list A) :
  In y (insert_desc key x l) <-> y = x \/ In y l.
Proof.
  induction l as [|z l IH]; simpl.
  - intuition.
  - destruct (key z <=? key x)%nat; simpl; [intuition|].
    rewrite IH. intuition.
Qed.

Lemma In_order_by_desc {A} (key : A -> nat) (y : A) (l : list A) :
  In y (order_by_desc key l) <-> In y l.
Proof.
  unfold order_by_desc. induction l as [|z l IH]; simpl; [tauto|].
  rewrite In_insert_desc, IH. intuition.
Qed.

Lemma first_some {A} (p : A -> bool) (rows : list A) (x : A) :
  first p rows = Some x -> In x rows /\ p x = true.
Proof. unfold first. apply find_some. Qed.

Lemma deleted_user_not_found (user : User.t) (us : list User.t) :
  first (user_by_id (User.id user)) (delete_user_row user us) = None.
Proof.
  apply first_none_iff. intros u Hu. unfold delete_user_row in Hu.
  apply list_elem_of_In, list_elem_of_filter in Hu. destruct Hu as [Hne _].
  unfold user_by_id. now apply Nat.eqb_neq.
Qed.

Section UserDeletion.
Context `{Collaborators}.

Lemma delete_user_found aid uid req st user :
  first (user_by_id uid) (users st) = Some user ->
  delete_user aid uid req st =
    (message "User deleted successfully" 200,
     set_users (delete_user_row user (users st)) st).
Proof. intros Hf. unfold delete_user. now rewrite Hf. Qed.

(** C8: an admin deletion of an existing user removes the rows of the
    user table with that id and nothing else: the prediction table is
    the same afterwards, and in the admin listing of the resulting
    state every prediction that was owned by the deleted user appears
    with all its fields and the owner email "Unknown". *)
Theorem delete_user_keeps_predictions
  (req : request) (st : state) (tok : string) (aid uid : nat) (user : User.t) :
  path req = DeleteUser uid ->
  extract_token req = inr tok ->
  admin_tokens st !! tok = Some aid ->
  first (user_by_id uid) (users st) = Some user ->
  (app req st).1 = message "User deleted successfully" 200 /\
  users (app req st).2 = filter (fun u => User.id u <> uid) (users st) /\
  predictions (app req st).2 = predictions st /\
  admins (app req st).2 = admins st /\
  active_tokens (app req st).2 = active_tokens st /\
  admin_tokens (app req st).2 = admin_tokens st /\
  forall (listing : request) (tok' : string) (aid' : nat),
    path listing = AdminPredictions ->
    extract_token listing = inr tok' ->
    admin_tokens (app req st).2 !! tok' = Some aid' ->
    exists items,
      (app listing (app req st).2).1 = mkResponse 200 (JArr items) /\
      forall p, In p (predictions st) -> Prediction.user_id p = uid ->
        In (JObj [("id", JInt (Z.of_nat (Prediction.id p)));
                  ("user_email", JStr "Unknown");
                  ("user_id", JInt (Z.of_nat uid));
                  ("input", Prediction.input_data p);
                  ("price", JFloat (Prediction.price p));
                  ("favorite", JBool (Prediction.favorite p));
                  ("created_at", JStr (isoformat (Prediction.created_at p)))])
           items.
Proof.
  intros Hp He Ht Hf.
  assert (Hid : User.id user = uid).
  { apply first_some in Hf. destruct Hf as [_ Hf]. now apply Nat.eqb_eq in Hf. }
  assert (Happ : app req st =
                 (message "User deleted successfully" 200,
                  set_users (delete_user_row user (users st)) st)).
  { unfold app. rewrite Hp. rewrite (admin_required_accepts _ _ _ _ _ He Ht).
    now apply delete_user_found. }
  rewrite Happ. cbn [fst snd users predictions admins active_tokens admin_tokens set_users].
  split; [reflexivity|]. split; [unfold delete_user_row; now rewrite Hid|].
  do 4 (split; [reflexivity|]).
  intros listing tok' aid' Hp' He' Ht'.
  eexists. split.
  - unfold app. rewrite Hp'.
    erewrite admin_required_accepts; [|exact He'|exact Ht'].
    unfold get_all_predictions. cbn [catch ok fst users predictions set_users].
    reflexivity.
  - intros p Hin Hown.
    apply in_map_iff. exists p. split; [|now apply In_order_by_desc].
    unfold admin_prediction_json. rewrite Hown, <- Hid.
    now rewrite deleted_user_not_found.
Qed.
End UserDeletion.

Lemma delete_user_keeps_predictions_witness :
  let p := Prediction.mk 1 1 example_payload (4500000 # 1) false 10 in
  let st := mkState [User.mk 1 "u@x.org" "salt$pw" false 0] [] [p] ∅ {[ "root" := 1%nat ]} in
  let req := mkRequest (DeleteUser 1) (Some "Bearer root") (ok JNull) 11 "" in
  let listing := mkRequest AdminPredictions (Some "Bearer root") (ok JNull) 12 "" in
  let st' := (@app sample_collaborators req st).2 in
  users st' = [] /\ predictions st' = [p] /\
  exists items,
    (@app sample_collaborators listing st').1 = mkResponse 200 (JArr items) /\
    In (JObj [("id", JInt 1); ("user_email", JStr "Unknown"); ("user_id", JInt 1);
              ("input", example_payload); ("price", JFloat (4500000 # 1));
              ("favorite", JBool false); ("created_at", JStr "2024-01-15T00:00:00")])
       items.
Proof.
  intros p st req listing st'.
  destruct (@delete_user_keeps_predictions sample_collaborators req st "root" 1 1
              (User.mk 1 "u@x.org" "salt$pw" false 0) eq_refl eq_refl eq_refl eq_refl)
    as (_ & Hu & Hp & _ & _ & _ & Hl).
  split; [exact Hu|]. split; [exact Hp|].
  destruct (Hl listing "root" 1%nat eq_refl eq_refl eq_refl) as (items & Hitems & Hin).
  exists items. split; [exact Hitems|].
  apply (Hin p); [simpl; now left | reflexivity].
Defined.

(** ** Owners of new predictions *)


Lemma first_exists {A} (p : A -> bool) (l : list A) (x : A) :
  In x l -> p x = true -> exists y, first p l = Some y.
Proof.
  intros Hin Hp. destruct (first p l) as [y|] eqn:E; [eauto|].
  rewrite (proj1 (first_none_iff p l) E x Hin) in Hp. discriminate Hp.
Qed.

Lemma first_map_same_id (f : User.t -> User.t) (uid : nat) (l : list User.t) (x : User.t) :
  (forall u, User.id (f u) = User.id u) ->
  first (user_by_id uid) l = Some x ->
  first (user_by_id uid) (map f l) = Some (f x).
Proof.
  intros Hf. unfold first, user_by_id. induction l as [|y l IH]; simpl; [discriminate|].
  rewrite Hf. destruct (User.id y =? uid)%nat; [now intros [= ->] | exact IH].
Qed.


Ltac handler_cases :=
  repeat match goal with
    | |- context [bind ?m _] => destruct m eqn:?; cbn [bind ok raise]
    | |- context [match first ?p ?l with _ => _ end] => destruct (first p l) eqn:?
    | |- context [if ?b then _ else _] => destruct b eqn:?
    | |- context [match ?m !! ?k with _ => _ end] => destruct (m !! k) eqn:?
    end;
  cbn [catch snd fst ok raise].

Section Effects.
Context `{Collaborators}.








Lemma run_cons req rest st :
  run (req :: rest) st =
    ((app req st).1 :: (run rest (app req st).2).1, (run rest (app req st).2).2).
Proof.
  cbn [run]. destruct (app req st) as [r st']. cbn [fst snd].
  destruct (run rest st') as [rs st'']. reflexivity.
Qed.





End Effects.




(** ** The block flag *)

Lemma first_unblocked (p : User.t -> bool) (us1 us2 : list User.t) :
  map unblocked us1 = map unblocked us2 ->
  (forall u, p (unblocked u) = p u) ->
  option_map unblocked (first p us1) = option_map unblocked (first p us2).
Proof.
  intros Hmap Hp. unfold first. revert us2 Hmap.
  induction us1 as [|u1 us1 IH]; intros [|u2 us2]; cbn [map find];
    try discriminate; [reflexivity|].
  intros Hmap.
  assert (Hu : unblocked u1 = unblocked u2) by congruence.
  assert (Hrest : map unblocked us1 = map unblocked us2) by congruence.
  assert (Hpu : p u1 = p u2) by (rewrite <- (Hp u1), <- (Hp u2); now rewrite Hu).
  rewrite Hpu. destruct (p u2); [cbn [option_map]; now rewrite Hu | now apply IH].
Qed.

Lemma ids_unblocked (us1 us2 : list User.t) :
  map unblocked us1 = map unblocked us2 -> map User.id us1 = map User.id us2.
Proof.
  intros Hmap. apply (f_equal (map User.id)) in Hmap.
  rewrite !map_map in Hmap. exact Hmap.
Qed.

Lemma same_modulo_block_refl st : same_modulo_block st st.
Proof. unfold same_modulo_block. auto. Qed.

Lemma unblocked_fields u1 u2 :
  unblocked u1 = unblocked u2 ->
  User.id u1 = User.id u2 /\ User.email u1 = User.email u2 /\
  User.password u1 = User.password u2 /\ User.created_at u1 = User.created_at u2.
Proof. destruct u1, u2. unfold unblocked. cbn. intros [= -> -> -> ->]. auto. Qed.

Section BlockFlag.
Context `{Collaborators}.

Lemma sim_token_required (f : nat -> handler) req st1 st2 :
  same_modulo_block st1 st2 ->
  (forall uid, (f uid req st1).1 = (f uid req st2).1 /\
               same_modulo_block (f uid req st1).2 (f uid req st2).2) ->
  (token_required f req st1).1 = (token_required f req st2).1 /\
  same_modulo_block (token_required f req st1).2 (token_required f req st2).2.
Proof.
  intros Hs Hf. pose proof Hs as (_ & _ & _ & Ht & _).
  unfold token_required. rewrite Ht.
  destruct (extract_token req) as [r|tok]; [now split|].
  destruct (active_tokens st2 !! tok); [apply Hf | now split].
Qed.

Lemma sim_register req st1 st2 :
  same_modulo_block st1 st2 ->
  (register req st1).1 = (register req st2).1 /\
  same_modulo_block (register req st1).2 (register req st2).2.
Proof.
  intros Hs. pose proof Hs as (Hu & Ha & Hp & Ht & Hat).
  unfold register.
  destruct (json_body req) as [e|data]; cbn [bind catch fst snd]; [now split|].
  destruct (get data "email") as [e|email]; cbn [bind catch fst snd]; [now split|].
  destruct (get data "password") as [e|password]; cbn [bind catch fst snd]; [now split|].
  destruct (negb (truthy email) || negb (truthy password));
    cbn [bind catch fst snd ok]; [now split|].
  destruct (as_text email) as [e|s]; cbn [bind catch fst snd]; [now split|].
  pose proof (first_unblocked (by_email s) _ _ Hu (fun u => eq_refl)) as Hf.
  destruct (first (by_email s) (users st1)), (first (by_email s) (users st2));
    try discriminate Hf; cbn [bind catch fst snd ok]; [now split|].
  destruct (password_text password) as [e|pw]; cbn [bind catch fst snd ok]; [now split|].
  split; [reflexivity|].
  unfold same_modulo_block. cbn [users admins predictions active_tokens admin_tokens set_users].
  rewrite !map_app, Hu, (ids_unblocked _ _ Hu). auto.
Qed.

Lemma sim_login req st1 st2 :
  same_modulo_block st1 st2 ->
  (login req st1).1 = (login req st2).1 /\
  same_modulo_block (login req st1).2 (login req st2).2.
Proof.
  intros Hs. pose proof Hs as (Hu & Ha & Hp & Ht & Hat).
  unfold login.
  destruct (json_body req) as [e|data]; cbn [bind catch fst snd]; [now split|].
  destruct (get data "email") as [e|email]; cbn [bind catch fst snd]; [now split|].
  destruct (get data "password") as [e|password]; cbn [bind catch fst snd]; [now split|].
  destruct (negb (truthy email) || negb (truthy password));
    cbn [bind catch fst snd ok]; [now split|].
  destruct (as_text email) as [e|s]; cbn [bind catch fst snd]; [now split|].
  pose proof (first_unblocked (by_email s) _ _ Hu (fun u => eq_refl)) as Hf.
  destruct (first (by_email s) (users st1)) as [u1|],
           (first (by_email s) (users st2)) as [u2|];
    try discriminate Hf; cbn [bind catch fst snd ok]; [|now split].
  assert (Hf' : unblocked u1 = unblocked u2) by (cbn [option_map] in Hf; congruence).
  apply unblocked_fields in Hf'.
  destruct Hf' as (Hid & Hem & Hpw & _). rewrite Hid, Hem, Hpw.
  destruct (password_text password) as [e|pw]; cbn [bind catch fst snd ok]; [now split|].
  destruct (negb (check_password_hash (User.password u2) pw));
    cbn [bind catch fst snd ok]; [now split|].
  split; [reflexivity|].
  unfold same_modulo_block.
  cbn [users admins predictions active_tokens admin_tokens set_active_tokens].
  rewrite Ht. auto.
Qed.

Lemma sim_get_current_user uid req st1 st2 :
  same_modulo_block st1 st2 ->
  (get_current_user uid req st1).1 = (get_current_user uid req st2).1 /\
  same_modulo_block (get_current_user uid req st1).2 (get_current_user uid req st2).2.
Proof.
  intros Hs. pose proof Hs as (Hu & _).
  unfold get_current_user.
  pose proof (first_unblocked (fun u => Nat.eqb (User.id u) uid) _ _ Hu
                (fun u => eq_refl)) as Hf.
  destruct (first (fun u => Nat.eqb (User.id u) uid) (users st1)) as [u1|],
           (first (fun u => Nat.eqb (User.id u) uid) (users st2)) as [u2|];
    try discriminate Hf; cbn [bind catch fst snd ok]; [|now split].
  assert (Hf' : unblocked u1 = unblocked u2) by (cbn [option_map] in Hf; congruence).
  apply unblocked_fields in Hf'.
  destruct Hf' as (Hid & Hem & _ & Hcr). rewrite Hid, Hem, Hcr. now split.
Qed.

(** The handlers that do not read the user table. *)
Ltac user_blind Hs :=
  let Hu := fresh "Hu" in
  let Ha := fresh "Ha" in
  let Hp := fresh "Hp" in
  let Ht := fresh "Ht" in
  let Hat := fresh "Hat" in
  pose proof Hs as (Hu & Ha & Hp & Ht & Hat);
  try rewrite Hp; try rewrite Ht;
  handler_cases;
  (split; [reflexivity|]);
  unfold same_modulo_block;
  cbn [users admins predictions active_tokens admin_tokens
       set_predictions set_active_tokens];
  try rewrite Hp; try rewrite Ht; auto.

Lemma sim_logout uid req st1 st2 :
  same_modulo_block st1 st2 ->
  (logout uid req st1).1 = (logout uid req st2).1 /\
  same_modulo_block (logout uid req st1).2 (logout uid req st2).2.
Proof. intros Hs. unfold logout. user_blind Hs. Qed.

Lemma sim_predict uid req st1 st2 :
  same_modulo_block st1 st2 ->
  (predict uid req st1).1 = (predict uid req st2).1 /\
  same_modulo_block (predict uid req st1).2 (predict uid req st2).2.
Proof. intros Hs. unfold predict. user_blind Hs. Qed.

Lemma sim_get_history uid req st1 st2 :
  same_modulo_block st1 st2 ->
  (get_history uid req st1).1 = (get_history uid req st2).1 /\
  same_modulo_block (get_history uid req st1).2 (get_history uid req st2).2.
Proof. intros Hs. unfold get_history. user_blind Hs. Qed.

Lemma sim_delete_history uid id req st1 st2 :
  same_modulo_block st1 st2 ->
  (delete_history uid id req st1).1 = (delete_history uid id req st2).1 /\
  same_modulo_block (delete_history uid id req st1).2 (delete_history uid id req st2).2.
Proof. intros Hs. unfold delete_history. user_blind Hs. Qed.

Lemma sim_toggle_favorite uid id req st1 st2 :
  same_modulo_block st1 st2 ->
  (toggle_favorite uid id req st1).1 = (toggle_favorite uid id req st2).1 /\
  same_modulo_block (toggle_favorite uid id req st1).2 (toggle_favorite uid id req st2).2.
Proof. intros Hs. unfold toggle_favorite. user_blind Hs. Qed.

(** One request on a user endpoint: same answer, and the two states
    still differ at most in the flags. *)
Lemma sim_app req st1 st2 :
  user_route (path req) = true ->
  same_modulo_block st1 st2 ->
  (app req st1).1 = (app req st2).1 /\
  same_modulo_block (app req st1).2 (app req st2).2.
Proof.
  intros Hr Hs. unfold app. destruct (path req); try discriminate Hr.
  - now apply sim_register.
  - now apply sim_login.
  - apply sim_token_required; [exact Hs|]. intros uid. now apply sim_get_current_user.
  - apply sim_token_required; [exact Hs|]. intros uid. now apply sim_logout.
  - apply sim_token_required; [exact Hs|]. intros uid. now apply sim_predict.
  - apply sim_token_required; [exact Hs|]. intros uid. now apply sim_get_history.
  - apply sim_token_required; [exact Hs|]. intros uid. now apply sim_delete_history.
  - apply sim_token_required; [exact Hs|]. intros uid. now apply sim_toggle_favorite.
Qed.

Lemma sim_run reqs st1 st2 :
  Forall (fun req => user_route (path req) = true) reqs ->
  same_modulo_block st1 st2 ->
  (run reqs st1).1 = (run reqs st2).1 /\
  same_modulo_block (run reqs st1).2 (run reqs st2).2.
Proof.
  intros Hall. revert st1 st2.
  induction Hall as [|req rest Hr _ IH]; intros st1 st2 Hs.
  - now split.
  - rewrite !run_cons. cbn [fst snd].
    destruct (sim_app req st1 st2 Hr Hs) as [Hresp Hs'].
    destruct (IH _ _ Hs') as [Hrest Hs''].
    split; [now rewrite Hresp, Hrest | exact Hs''].
Qed.
End BlockFlag.

Lemma unblocked_flip_blocked_if (user u : User.t) :
  unblocked (if Nat.eqb (User.id u) (User.id user) then flip_blocked u else u) = unblocked u.
Proof. destruct (Nat.eqb (User.id u) (User.id user)); reflexivity. Qed.

Lemma first_flip_blocked (uid : nat) (us : list User.t) (user : User.t) :
  first (user_by_id uid) us = Some user ->
  first (user_by_id uid)
        (map (fun u => if Nat.eqb (User.id u) (User.id user) then flip_blocked u else u) us)
    = Some (flip_blocked user).
Proof.
  intros Hf.
  rewrite (first_map_same_id _ uid us user).
  - now rewrite Nat.eqb_refl.
  - intros u. destruct (Nat.eqb (User.id u) (User.id user)); reflexivity.
  - exact Hf.
Qed.

Section BlockToggle.
Context `{Collaborators}.

Lemma toggle_block_user_found aid uid req st user :
  first (user_by_id uid) (users st) = Some user ->
  toggle_block_user aid uid req st =
    (jsonify [("message", JStr "User block status updated");
              ("is_blocked", JBool (negb (User.is_blocked user)))] 200,
     set_users
       (map (fun u => if Nat.eqb (User.id u) (User.id user) then flip_blocked u else u)
            (users st)) st).
Proof. intros Hf. unfold toggle_block_user. now rewrite Hf. Qed.

(** C5: the block toggle stores the negated flag in the user's row and
    changes nothing else; and two states that differ only in
    [is_blocked] flags give the same responses to any sequence of
    requests on the user endpoints (register, login and everything
    behind [token_required]), in particular the state before and the
    state after the toggle. *)
Theorem block_flag_is_not_enforced
  (st1 st2 st : state) (aid uid : nat) (toggle : request) (user : User.t)
  (reqs : list request) :
  same_modulo_block st1 st2 ->
  Forall (fun req => user_route (path req) = true) reqs ->
  first (user_by_id uid) (users st) = Some user ->
  (run reqs st1).1 = (run reqs st2).1 /\
  first (user_by_id uid) (users (toggle_block_user aid uid toggle st).2)
    = Some (flip_blocked user) /\
  User.is_blocked (flip_blocked user) = negb (User.is_blocked user) /\
  same_modulo_block st (toggle_block_user aid uid toggle st).2 /\
  (run reqs (toggle_block_user aid uid toggle st).2).1 = (run reqs st).1.
Proof.
  intros Hs Hall Hf.
  assert (Hst : same_modulo_block st (toggle_block_user aid uid toggle st).2).
  { rewrite (toggle_block_user_found _ _ _ _ _ Hf).
    unfold same_modulo_block.
    cbn [snd users admins predictions active_tokens admin_tokens set_users].
    rewrite map_map. split; [|auto].
    apply map_ext. intros u. symmetry. apply unblocked_flip_blocked_if. }
  split; [exact (proj1 (sim_run reqs st1 st2 Hall Hs))|].
  split.
  { rewrite (toggle_block_user_found _ _ _ _ _ Hf). cbn [snd users set_users].
    now apply first_flip_blocked. }
  split; [reflexivity|]. split; [exact Hst|].
  symmetry. exact (proj1 (sim_run reqs _ _ Hall Hst)).
Qed.
End BlockToggle.

Lemma block_flag_is_not_enforced_witness :
  let free := mkState [User.mk 1 "u@x.org" "salt1$pw" false 1] [] [] ∅ ∅ in
  let blocked := mkState [User.mk 1 "u@x.org" "salt1$pw" true 1] [] [] ∅ ∅ in
  let reqs := [login_req; predict_req;
               mkRequest Me (Some "Bearer usertok") (ok JNull) 6 ""] in
  (@run sample_collaborators reqs free).1 = (@run sample_collaborators reqs blocked).1 /\
  map status (@run sample_collaborators reqs blocked).1 = [200; 200; 200]%nat /\
  users (toggle_block_user 1 1 toggle_block_req free).2
    = users blocked.
Proof.
  intros free blocked reqs.
  destruct (@block_flag_is_not_enforced sample_collaborators free blocked free 1 1
              toggle_block_req (User.mk 1 "u@x.org" "salt1$pw" false 1) reqs)
    as (Hrun & _ & _ & _ & _).
  - unfold same_modulo_block. repeat split.
  - repeat constructor.
  - reflexivity.
  - split; [exact Hrun|]. split; vm_compute; reflexivity.
Defined.

(** ** The primary key of the prediction table is kept by every request *)

Lemma next_id_above (ids : list nat) (i : nat) : In i ids -> (i < next_id ids)%nat.
Proof.
  unfold next_id. induction ids as [|j ids IH]; simpl; [tauto|].
  intros [->|Hin]; [lia|]. specialize (IH Hin). lia.
Qed.

Lemma NoDup_map_filter {A} (key : A -> nat) (P : A -> Prop) `{forall x, Decision (P x)}
      (l : list A) :
  NoDup (map key l) -> NoDup (map key (filter P l)).
Proof.
  induction l as [|x l IH]; [trivial|].
  cbn [map]. rewrite NoDup_cons. intros [Hx Hnd].
  rewrite filter_cons. destruct (decide (P x)); [|now apply IH].
  cbn [map]. apply NoDup_cons. split; [|now apply IH].
  intros Hin. apply Hx. apply list_elem_of_In. apply list_elem_of_In in Hin.
  apply in_map_iff in Hin. destruct Hin as (y & Hy & Hin).
  apply in_map_iff. exists y. split; [exact Hy|].
  apply list_elem_of_In. apply list_elem_of_In, list_elem_of_filter in Hin. tauto.
Qed.

Lemma NoDup_map_append_fresh (p : Prediction.t) (ps : list Prediction.t) :
  Prediction.id p = next_id (map Prediction.id ps) ->
  NoDup (map Prediction.id ps) -> NoDup (map Prediction.id (ps ++ [p])).
Proof.
  intros Hid Hnd. rewrite map_app. apply NoDup_app. split; [exact Hnd|]. split.
  - intros i Hi Hi'. apply list_elem_of_In in Hi. apply list_elem_of_In in Hi'.
    simpl in Hi'. destruct Hi' as [<-|[]].
    apply next_id_above in Hi. lia.
  - cbn [map]. apply NoDup_cons. split; [|constructor].
    intros Hin. apply list_elem_of_In in Hin. destruct Hin.
Qed.

Lemma map_id_flip_favorite (i : nat) (ps : list Prediction.t) :
  map Prediction.id
      (map (fun p => if Nat.eqb (Prediction.id p) i then flip_favorite p else p) ps)
    = map Prediction.id ps.
Proof.
  rewrite map_map. apply map_ext. intros p.
  destruct (Nat.eqb (Prediction.id p) i); reflexivity.
Qed.

Section PrimaryKey.
Context `{Collaborators}.

Lemma token_required_keeps (P : state -> Prop) (f : nat -> handler) req st :
  P st -> (forall uid, P (f uid req st).2) -> P (token_required f req st).2.
Proof.
  intros HP Hf. unfold token_required.
  destruct (extract_token req); [exact HP|].
  destruct (active_tokens st !! s); [apply Hf | exact HP].
Qed.

Lemma admin_required_keeps (P : state -> Prop) (f : nat -> handler) req st :
  P st -> (forall aid, P (f aid req st).2) -> P (admin_required f req st).2.
Proof.
  intros HP Hf. unfold admin_required.
  destruct (extract_token req); [exact HP|].
  destruct (admin_tokens st !! s); [apply Hf | exact HP].
Qed.

Ltac keeps_key Hk :=
  handler_cases; unfold unique_prediction_ids in *;
  cbn [predictions set_users set_predictions set_active_tokens set_admin_tokens];
  try exact Hk.

Lemma app_unique_prediction_ids req st :
  unique_prediction_ids st -> unique_prediction_ids (app req st).2.
Proof.
  intros Hk. unfold app. destruct (path req);
    try (apply token_required_keeps; [exact Hk|]; intros uid);
    try (apply admin_required_keeps; [exact Hk|]; intros aid).
  - unfold register. keeps_key Hk.
  - unfold login. keeps_key Hk.
  - unfold get_current_user. keeps_key Hk.
  - unfold logout. keeps_key Hk.
  - unfold admin_login. keeps_key Hk.
  - unfold get_current_admin. keeps_key Hk.
  - unfold admin_logout. keeps_key Hk.
  - unfold predict. keeps_key Hk. now apply NoDup_map_append_fresh.
  - exact Hk.
  - unfold delete_history. keeps_key Hk. unfold delete_prediction.
    now apply NoDup_map_filter.
  - unfold toggle_favorite. keeps_key Hk. now rewrite map_id_flip_favorite.
  - exact Hk.
  - unfold delete_user. keeps_key Hk.
  - unfold toggle_block_user. keeps_key Hk.
  - exact Hk.
  - unfold delete_prediction_admin. keeps_key Hk. unfold delete_prediction.
    now apply NoDup_map_filter.
  - unfold get_statistics. keeps_key Hk.
  - exact Hk.
  - exact Hk.
Qed.

(** Every state reached from one with unique prediction ids has unique
    prediction ids. *)
Lemma run_unique_prediction_ids reqs st :
  unique_prediction_ids st -> unique_prediction_ids (run reqs st).2.
Proof.
  revert st. induction reqs as [|req rest IH]; intros st Hk; [exact Hk|].
  rewrite run_cons. cbn [snd]. apply IH. now apply app_unique_prediction_ids.
Qed.
End PrimaryKey.


(** * Further properties of the service *)

Lemma extract_token_inl req r :
  extract_token req = inl r -> exists msg, r = error msg 401.
Proof.
  unfold extract_token. destruct (authorization req) as [h|].
  - destruct (split " " h !! 1%nat) as [t|].
    + destruct (String.eqb t ""); [|discriminate]. intros [= <-]. eauto.
    + intros [= <-]. eauto.
  - intros [= <-]. eauto.
Qed.

Ltac route_cases :=
  repeat match goal with
    | |- context [match extract_token ?r with _ => _ end] =>
        let E := fresh "Etok" in
        destruct (extract_token r) eqn:E;
        [apply extract_token_inl in E; destruct E as [? ->]|]
    | |- context [bind ?m _] => destruct m eqn:?; cbn [bind ok raise]
    | |- context [match first ?p ?l with _ => _ end] => destruct (first p l) eqn:?
    | |- context [if ?b then _ else _] => destruct b eqn:?
    | |- context [match ?m !! ?k with _ => _ end] => destruct (m !! k) eqn:?
    end;
  cbn [catch snd fst ok raise].

Ltac unfold_handlers :=
  unfold token_required, admin_required, register, login, get_current_user, logout,
    admin_login, get_current_admin, admin_logout, predict, get_history,
    delete_history, toggle_favorite, get_all_users, delete_user, toggle_block_user,
    get_all_predictions, delete_prediction_admin, get_statistics, get_model_info,
    home.

Section Routing.
Context `{Collaborators}.

(** X1: Every answer is a 200, or an error of status 400, 401 or 404 whose
    body is [{"error": msg}] and which leaves the state as it was. *)
Theorem errors_have_no_effect (req : request) (st : state) :
  status (app req st).1 = 200%nat \/
  (exists msg code, In code [400; 401; 404]%nat /\ app req st = (error msg code, st)).
Proof.
  unfold app. destruct (path req); unfold_handlers; route_cases;
    first [ left; reflexivity
          | right; eexists _, _; split; [|reflexivity]; simpl; tauto ].
Qed.

(** X2: A request to a guarded route whose token is missing, malformed or
    not in the registry of the route's guard is answered 401 and changes
    nothing, whatever the route. *)
Theorem unauthenticated_request_is_rejected (req : request) (st : state) :
  guard_of (path req) <> Open ->
  principal req st = None ->
  exists msg, app req st = (error msg 401, st).
Proof.
  unfold principal, app. intros Hg Hp.
  destruct (path req); cbn [guard_of] in Hg, Hp; try (now destruct Hg);
    unfold token_required, admin_required;
    (destruct (extract_token req) as [r|tok] eqn:E;
     [apply extract_token_inl in E; destruct E as [msg ->]; eauto
     |rewrite Hp; eauto]).
Qed.

(** X3: The GET routes never change the state. *)
Theorem read_only_routes_keep_state (req : request) (st : state) :
  read_only (path req) = true -> (app req st).2 = st.
Proof.
  unfold app. intros Hr. destruct (path req); try discriminate Hr;
    unfold_handlers; route_cases; reflexivity.
Qed.

(** X4: Each part of the state is written only by the routes that own it:
    the user registry by login and logout, the admin registry by the
    admin login and logout, the user table by registration and the two
    admin user operations, the prediction table by predict, the two
    history operations and the admin deletion of a prediction; the admin
    table by none. *)
Theorem routes_write_only_their_part (req : request) (st : state) :
  (path req <> Login -> path req <> Logout ->
   active_tokens (app req st).2 = active_tokens st) /\
  (path req <> AdminLogin -> path req <> AdminLogout ->
   admin_tokens (app req st).2 = admin_tokens st) /\
  (path req <> Register ->
   (forall uid, path req <> DeleteUser uid) ->
   (forall uid, path req <> ToggleBlockUser uid) ->
   users (app req st).2 = users st) /\
  (path req <> Predict ->
   (forall i, path req <> DeleteHistory i) ->
   (forall i, path req <> ToggleFavorite i) ->
   (forall i, path req <> DeletePredictionAdmin i) ->
   predictions (app req st).2 = predictions st) /\
  admins (app req st).2 = admins st.
Proof.
  unfold app. destruct (path req) eqn:Hp;
    (split; [|split; [|split; [|split]]]); intros;
    try congruence;
    unfold_handlers; route_cases; reflexivity.
Qed.
End Routing.
(** ** Registration and login *)

Lemma split_free_of sep s : free_of sep s = true -> split sep s = [s].
Proof.
  induction s as [|c s IH]; [reflexivity|].
  cbn [free_of split]. destruct (Ascii.eqb c sep); [discriminate|].
  cbn [negb andb]. intros Hs. now rewrite (IH Hs).
Qed.

Lemma split_bearer_token token :
  free_of " " token = true -> split " " (bearer token) !! 1%nat = Some token.
Proof.
  intros Hf.
  assert (Hs : split " " (bearer token) = "Bearer" :: split " " token) by reflexivity.
  rewrite Hs, (split_free_of _ _ Hf). reflexivity.
Qed.

Lemma first_app_none {A} (p : A -> bool) (l : list A) (x : A) :
  first p l = None -> first p (l ++ [x]) = if p x then Some x else None.
Proof.
  unfold first. induction l as [|y l IH]; simpl; [trivial|].
  destruct (p y); [discriminate | exact IH].
Qed.

Lemma truthy_text s : truthy (JStr s) = true <-> s <> "".
Proof.
  cbn. destruct (String.eqb_spec s ""); cbn; split; congruence.
Qed.

Section Accounts.
Context `{Collaborators}.

(** X5: The three credential endpoints answer 400 "Email and password
    required", and write nothing, when the email or the password is
    absent from the payload, null, empty, zero or false. *)
Theorem credentials_are_required (req : request) (st : state) (data email password : json) :
  json_body req = ok data ->
  get data "email" = ok email ->
  get data "password" = ok password ->
  truthy email = false \/ truthy password = false ->
  register req st = (error "Email and password required" 400, st) /\
  login req st = (error "Email and password required" 400, st) /\
  admin_login req st = (error "Email and password required" 400, st).
Proof.
  intros Hb He Hp Hf.
  assert (Hor : negb (truthy email) || negb (truthy password) = true).
  { destruct Hf as [-> | ->]; [reflexivity|]. apply orb_true_r. }
  unfold register, login, admin_login. rewrite Hb. cbn [bind ok].
  rewrite He. cbn [bind ok]. rewrite Hp. cbn [bind ok]. rewrite Hor.
  repeat split.
Qed.

(** X6: Registering an email that some user already has is answered 400
    "Email already registered" and adds no row. *)
Theorem duplicate_email_is_refused
  (req : request) (st : state) (data password : json) (email : string) (u : User.t) :
  json_body req = ok data ->
  get data "email" = ok (JStr email) ->
  get data "password" = ok password ->
  email <> "" ->
  truthy password = true ->
  In u (users st) ->
  User.email u = email ->
  register req st = (error "Email already registered" 400, st).
Proof.
  intros Hb He Hp Hne Htp Hin Hu.
  unfold register. rewrite Hb. cbn [bind ok]. rewrite He. cbn [bind ok].
  rewrite Hp. cbn [bind ok]. rewrite Htp.
  rewrite (proj2 (truthy_text email) Hne). cbn [negb orb as_text password_text bind ok].
  destruct (first_exists (by_email email) (users st) u Hin) as [y Hy].
  { unfold by_email. rewrite Hu. apply String.eqb_refl. }
  now rewrite Hy.
Qed.

(** X7: With text credentials, a login is answered 200 exactly when both are
    non-empty, a user has the email and the stored hash verifies the
    password; it then maps the drawn token to that user's id and changes
    nothing else, and in every other case it changes nothing at all. *)
Theorem login_issues_token_iff_verified
  (req : request) (st : state) (data : json) (email password : string) :
  json_body req = ok data ->
  get data "email" = ok (JStr email) ->
  get data "password" = ok (JStr password) ->
  (status (login req st).1 = 200%nat <->
   email <> "" /\ password <> "" /\
   exists user, first (by_email email) (users st) = Some user /\
                check_password_hash (User.password user) password = true) /\
  (forall user,
      email <> "" -> password <> "" ->
      first (by_email email) (users st) = Some user ->
      check_password_hash (User.password user) password = true ->
      (login req st).2 =
        set_active_tokens (<[rand req := User.id user]> (active_tokens st)) st) /\
  (status (login req st).1 <> 200%nat -> (login req st).2 = st).
Proof.
  intros Hb He Hp. unfold login. rewrite Hb. cbn [bind ok]. rewrite He. cbn [bind ok].
  rewrite Hp. cbn [bind ok truthy].
  destruct (String.eqb_spec email "") as [->|Hne];
    [cbn; repeat split; try discriminate; try tauto; intros; congruence|].
  destruct (String.eqb_spec password "") as [->|Hnp];
    [cbn; repeat split; try discriminate; try tauto; intros; congruence|].
  cbn [negb orb as_text password_text bind ok].
  destruct (first (by_email email) (users st)) as [user|] eqn:Hf.
  - cbn [bind ok].
    destruct (check_password_hash (User.password user) password) eqn:Hc; cbn.
    + split; [|split].
      * split; [intros _; repeat split; auto; eauto | reflexivity].
      * intros u _ _ [= <-] _. reflexivity.
      * congruence.
    + split; [|split].
      * split; [discriminate|]. intros (_ & _ & u & [= <-] & Hu). congruence.
      * intros u _ _ [= <-] Hu. congruence.
      * reflexivity.
  - cbn. split; [|split].
    + split; [discriminate|]. intros (_ & _ & u & Hu & _). discriminate Hu.
    + intros u _ _ Hu. discriminate Hu.
    + reflexivity.
Qed.

(** X8: A login or an admin login leaves every token other than the one it
    draws resolving as before, in both registries: earlier sessions of
    the same or of other principals stay valid. *)
Theorem login_keeps_other_tokens (req : request) (st : state) (t : string) :
  t <> rand req ->
  active_tokens (login req st).2 !! t = active_tokens st !! t /\
  admin_tokens (login req st).2 !! t = admin_tokens st !! t /\
  active_tokens (admin_login req st).2 !! t = active_tokens st !! t /\
  admin_tokens (admin_login req st).2 !! t = admin_tokens st !! t.
Proof.
  intros Hne. unfold login, admin_login.
  repeat split; route_cases;
    cbn [active_tokens admin_tokens set_active_tokens set_admin_tokens];
    try reflexivity; now apply lookup_insert_ne.
Qed.

(** X9: A registration answered 200 followed by a login with the same
    credentials is answered 200 and the token drawn resolves to the id
    of the new user, provided the hash of a password verifies that
    password. *)
Theorem register_then_login
  (reg log : request) (st : state) (data data' : json) (email password : string) :
  json_body reg = ok data ->
  get data "email" = ok (JStr email) ->
  get data "password" = ok (JStr password) ->
  json_body log = ok data' ->
  get data' "email" = ok (JStr email) ->
  get data' "password" = ok (JStr password) ->
  check_password_hash (generate_password_hash (rand reg) password) password = true ->
  status (register reg st).1 = 200%nat ->
  status (login log (register reg st).2).1 = 200%nat /\
  active_tokens (login log (register reg st).2).2 !! rand log
    = Some (next_id (map User.id (users st))) /\
  exists u, first (user_by_id (next_id (map User.id (users st))))
                  (users (register reg st).2) = Some u /\ User.email u = email.
Proof.
  intros Hb He Hp Hb' He' Hp' Hc.
  unfold register at 1. rewrite Hb. cbn [bind ok]. rewrite He. cbn [bind ok].
  rewrite Hp. cbn [bind ok truthy].
  destruct (String.eqb_spec email "") as [->|Hne]; [cbn; discriminate|].
  destruct (String.eqb_spec password "") as [->|Hnp]; [cbn; discriminate|].
  cbn [negb orb as_text password_text bind ok].
  destruct (first (by_email email) (users st)) as [user|] eqn:Hf; [cbn; discriminate|].
  intros _.
  assert (Hreg : (register reg st).2 =
                 set_users (users st ++
                   [User.mk (next_id (map User.id (users st))) email
                            (generate_password_hash (rand reg) password) false (now reg)]) st).
  { unfold register. rewrite Hb. cbn [bind ok]. rewrite He. cbn [bind ok].
    rewrite Hp. cbn [bind ok truthy].
    destruct (String.eqb_spec email ""); [contradiction|].
    destruct (String.eqb_spec password ""); [contradiction|].
    cbn [negb orb as_text password_text bind ok]. now rewrite Hf. }
  rewrite Hreg.
  set (new := User.mk _ _ _ _ _).
  assert (Hfind : first (by_email email) (users st ++ [new]) = Some new).
  { rewrite (first_app_none _ _ _ Hf). unfold by_email, new. cbn.
    now rewrite String.eqb_refl. }
  unfold login. rewrite Hb'. cbn [bind ok]. rewrite He'. cbn [bind ok].
  rewrite Hp'. cbn [bind ok truthy].
  destruct (String.eqb_spec email ""); [contradiction|].
  destruct (String.eqb_spec password ""); [contradiction|].
  cbn [negb orb as_text password_text bind ok users set_users]. rewrite Hfind. cbn [bind ok].
  assert (Hpw : User.password new = generate_password_hash (rand reg) password)
    by reflexivity.
  rewrite Hpw, Hc.
  cbn [negb catch fst snd status jsonify active_tokens set_active_tokens users set_users].
  split; [reflexivity|]. split; [apply lookup_insert_eq|].
  destruct (first_exists (user_by_id (next_id (map User.id (users st))))
              (users st ++ [new]) new) as [u Hu].
  { apply in_or_app. right. now left. }
  { unfold user_by_id, new. cbn. apply Nat.eqb_refl. }
  exists u. split; [exact Hu|].
  apply first_some in Hu. destruct Hu as [Hin Hid].
  apply in_app_or in Hin. destruct Hin as [Hin|[<-|[]]]; [|reflexivity].
  unfold user_by_id in Hid. apply Nat.eqb_eq in Hid.
  pose proof (next_id_above (map User.id (users st)) (User.id u)
                (in_map User.id _ _ Hin)) as Hlt. lia.
Qed.

(** X10: The token a login issues is accepted by the user guard: a request
    carrying "Bearer <token>" reaches the handler with the id the token
    was issued for, when the token is not empty and has no space. *)
Theorem issued_token_is_accepted
  (f : nat -> handler) (req : request) (st : state) (token : string) (uid : nat) :
  authorization req = Some (bearer token) ->
  token <> "" ->
  free_of " " token = true ->
  token_required f req (set_active_tokens (<[token := uid]> (active_tokens st)) st)
    = f uid req (set_active_tokens (<[token := uid]> (active_tokens st)) st).
Proof.
  intros Hh Hne Hf. unfold token_required.
  rewrite (extract_token_segment req (bearer token) token Hh
             (split_bearer_token token Hf) Hne).
  cbn [active_tokens set_active_tokens]. now rewrite lookup_insert_eq.
Qed.

(** X11: After a logout answered 200, the same header is refused by every
    route behind the user guard with "Invalid or expired token". *)
Theorem logged_out_token_is_refused (req next : request) (st : state) (uid : nat) :
  path req = Logout ->
  principal req st = Some uid ->
  authorization next = authorization req ->
  guard_of (path next) = UserGuard ->
  (app req st).1 = message "Logged out successfully" 200 /\
  app next (app req st).2 = (error "Invalid or expired token" 401, (app req st).2).
Proof.
  intros Hp Hpr Hauth Hg. unfold principal in Hpr. rewrite Hp in Hpr. cbn [guard_of] in Hpr.
  destruct (extract_token req) as [r|tok] eqn:He; [discriminate Hpr|].
  destruct (extract_token_inr _ _ He) as (h & Hh & Hs & Hne).
  assert (Hout : app req st =
                 (message "Logged out successfully" 200,
                  set_active_tokens (delete tok (active_tokens st)) st)).
  { unfold app. rewrite Hp. unfold token_required. rewrite He, Hpr.
    rewrite (logout_effect _ _ _ _ _ Hh Hs). now rewrite Hpr. }
  rewrite Hout. cbn [fst snd]. split; [reflexivity|].
  assert (He' : extract_token next = inr tok).
  { apply (extract_token_segment next h tok); [congruence | exact Hs | exact Hne]. }
  unfold app.
  destruct (path next); try discriminate Hg; unfold token_required;
    rewrite He'; cbn [active_tokens set_active_tokens];
    now rewrite lookup_delete_eq.
Qed.
End Accounts.

(** ** Listings *)

Lemma insert_desc_perm {A} (key : A -> nat) (x : A) (l : list A) :
  Permutation (insert_desc key x l) (x :: l).
Proof.
  induction l as [|y l IH]; cbn [insert_desc]; [reflexivity|].
  destruct (key y <=? key x)%nat; [reflexivity|].
  rewrite IH. apply perm_swap.
Qed.

Lemma order_by_desc_perm {A} (key : A -> nat) (l : list A) :
  Permutation (order_by_desc key l) l.
Proof.
  unfold order_by_desc. induction l as [|x l IH]; cbn [foldr]; [reflexivity|].
  rewrite insert_desc_perm. now constructor.
Qed.

Lemma insert_desc_sorted {A} (key : A -> nat) (x : A) (l : list A) :
  newest_first key l -> newest_first key (insert_desc key x l).
Proof.
  unfold newest_first. induction l as [|y l IH]; cbn [insert_desc]; intros Hs.
  - repeat constructor.
  - destruct (Nat.leb_spec (key y) (key x)) as [Hle|Hlt].
    + constructor; [exact Hs|].
      apply StronglySorted_inv in Hs. destruct Hs as [_ Hall].
      constructor; [exact Hle|].
      apply Forall_forall. intros z Hz.
      pose proof (proj1 (Forall_forall _ _) Hall z Hz) as Hzy. cbn in Hzy. lia.
    + apply StronglySorted_inv in Hs. destruct Hs as [Hs Hall].
      constructor; [now apply IH|].
      apply Forall_forall. intros z Hz. apply list_elem_of_In, In_insert_desc in Hz.
      destruct Hz as [->|Hz]; [lia|].
      apply list_elem_of_In in Hz.
      exact (proj1 (Forall_forall _ _) Hall z Hz).
Qed.

Lemma order_by_desc_sorted {A} (key : A -> nat) (l : list A) :
  newest_first key (order_by_desc key l).
Proof.
  unfold order_by_desc. induction l as [|x l IH]; cbn [foldr].
  - constructor.
  - now apply insert_desc_sorted.
Qed.

Lemma principal_user req st uid (f : nat -> handler) :
  guard_of (path req) = UserGuard -> principal req st = Some uid ->
  token_required f req st = f uid req st.
Proof.
  unfold principal, token_required. intros ->.
  destruct (extract_token req); [discriminate|]. now intros ->.
Qed.

Lemma principal_admin req st aid (f : nat -> handler) :
  guard_of (path req) = AdminGuard -> principal req st = Some aid ->
  admin_required f req st = f aid req st.
Proof.
  unfold principal, admin_required. intros ->.
  destruct (extract_token req); [discriminate|]. now intros ->.
Qed.

Lemma first_map_preserving {A} (p : A -> bool) (f : A -> A) (l : list A) :
  (forall x, p (f x) = p x) ->
  first p (map f l) = option_map f (first p l).
Proof.
  intros Hp. unfold first. induction l as [|x l IH]; [reflexivity|].
  cbn [map find]. rewrite Hp. destruct (p x); [reflexivity | exact IH].
Qed.

Lemma flip_favorite_involutive p : flip_favorite (flip_favorite p) = p.
Proof. destruct p. unfold flip_favorite. cbn. now rewrite negb_involutive. Qed.

Lemma flip_blocked_involutive u : flip_blocked (flip_blocked u) = u.
Proof. destruct u. unfold flip_blocked. cbn. now rewrite negb_involutive. Qed.

Lemma flip_favorite_of_twice row ps :
  map (flip_favorite_of (flip_favorite row)) (map (flip_favorite_of row) ps) = ps.
Proof.
  rewrite map_map. rewrite <- (map_id ps) at 2. apply map_ext. intros p.
  unfold flip_favorite_of. cbn [flip_favorite Prediction.id].
  destruct (Nat.eqb (Prediction.id p) (Prediction.id row)) eqn:E.
  - cbn [flip_favorite Prediction.id]. rewrite E. apply flip_favorite_involutive.
  - now rewrite E.
Qed.

Lemma flip_blocked_of_twice row us :
  map (flip_blocked_of (flip_blocked row)) (map (flip_blocked_of row) us) = us.
Proof.
  rewrite map_map. rewrite <- (map_id us) at 2. apply map_ext. intros u.
  unfold flip_blocked_of. cbn [flip_blocked User.id].
  destruct (Nat.eqb (User.id u) (User.id row)) eqn:E.
  - cbn [flip_blocked User.id]. rewrite E. apply flip_blocked_involutive.
  - now rewrite E.
Qed.

Section Resources.
Context `{Collaborators}.

(** X12: GET /history lists exactly the caller's predictions, each once,
    newest first, and nobody else's. *)
Theorem history_is_scoped_and_newest_first (req : request) (st : state) (uid : nat) :
  path req = History ->
  principal req st = Some uid ->
  exists rows,
    app req st = (mkResponse 200 (JArr (map prediction_json rows)), st) /\
    Permutation rows (filter (fun p => Prediction.user_id p = uid) (predictions st)) /\
    newest_first Prediction.created_at rows /\
    (forall p, In p rows <-> In p (predictions st) /\ Prediction.user_id p = uid).
Proof.
  intros Hp Hpr.
  exists (order_by_desc Prediction.created_at
            (filter (fun p => owned_by uid p = true) (predictions st))).
  assert (Hfilter : filter (fun p => owned_by uid p = true) (predictions st)
                    = filter (fun p => Prediction.user_id p = uid) (predictions st)).
  { apply list_filter_iff. intros p. unfold owned_by. apply Nat.eqb_eq. }
  split; [|split; [|split]].
  - unfold app. rewrite Hp.
    rewrite (principal_user req st uid); [reflexivity | now rewrite Hp | exact Hpr].
  - rewrite <- Hfilter. apply order_by_desc_perm.
  - apply order_by_desc_sorted.
  - intros p. rewrite In_order_by_desc, <- !list_elem_of_In, list_elem_of_filter.
    unfold owned_by. rewrite Nat.eqb_eq. tauto.
Qed.

(** X13: GET /admin/predictions lists every stored prediction once, newest
    first, whoever owns it. *)
Theorem admin_listing_is_complete_and_newest_first
  (req : request) (st : state) (aid : nat) :
  path req = AdminPredictions ->
  principal req st = Some aid ->
  exists rows,
    app req st = (mkResponse 200 (JArr (map (admin_prediction_json (users st)) rows)), st) /\
    Permutation rows (predictions st) /\
    newest_first Prediction.created_at rows.
Proof.
  intros Hp Hpr. exists (order_by_desc Prediction.created_at (predictions st)).
  split; [|split].
  - unfold app. rewrite Hp.
    rewrite (principal_admin req st aid); [reflexivity | now rewrite Hp | exact Hpr].
  - apply order_by_desc_perm.
  - apply order_by_desc_sorted.
Qed.

(** X14: Toggling the favorite flag of one's own prediction twice answers the
    negated and then the original flag, and gives back the state before
    the first toggle. *)
Theorem toggle_favorite_twice
  (req : request) (st : state) (uid i : nat) (p : Prediction.t) :
  path req = ToggleFavorite i ->
  principal req st = Some uid ->
  first (by_id_and_owner i uid) (predictions st) = Some p ->
  (app req st).1 =
    jsonify [("message", JStr "favorite toggled");
             ("favorite", JBool (negb (Prediction.favorite p)))] 200 /\
  app req (app req st).2 =
    (jsonify [("message", JStr "favorite toggled");
              ("favorite", JBool (Prediction.favorite p))] 200, st).
Proof.
  intros Hp Hpr Hf.
  assert (Hg : guard_of (path req) = UserGuard) by now rewrite Hp.
  assert (H1 : app req st =
               (jsonify [("message", JStr "favorite toggled");
                         ("favorite", JBool (negb (Prediction.favorite p)))] 200,
                set_predictions (map (flip_favorite_of p) (predictions st)) st)).
  { unfold app. rewrite Hp. rewrite (principal_user req st uid _ Hg Hpr).
    unfold toggle_favorite. rewrite Hf. reflexivity. }
  rewrite H1. cbn [fst snd]. split; [reflexivity|].
  set (st1 := set_predictions _ st).
  assert (Hpr1 : principal req st1 = Some uid) by exact Hpr.
  assert (Hf1 : first (by_id_and_owner i uid) (predictions st1) = Some (flip_favorite p)).
  { unfold st1. cbn [predictions set_predictions].
    rewrite first_map_preserving.
    - rewrite Hf. cbn [option_map]. unfold flip_favorite_of. now rewrite Nat.eqb_refl.
    - intros q. unfold flip_favorite_of, by_id_and_owner.
      destruct (Nat.eqb (Prediction.id q) (Prediction.id p)); reflexivity. }
  unfold app. rewrite Hp. rewrite (principal_user req st1 uid _ Hg Hpr1).
  unfold toggle_favorite. rewrite Hf1. cbn [catch ok flip_favorite Prediction.favorite].
  rewrite negb_involutive. f_equal.
  unfold st1. cbn [predictions set_predictions].
  change (fun q : Prediction.t =>
            if Nat.eqb (Prediction.id q) (Prediction.id (flip_favorite p))
            then flip_favorite q else q)
    with (flip_favorite_of (flip_favorite p)).
  rewrite flip_favorite_of_twice. now destruct st.
Qed.

(** X15: Toggling the block flag of a user twice answers the negated and then
    the original flag, and gives back the state before the first
    toggle. *)
Theorem toggle_block_twice
  (req : request) (st : state) (aid uid : nat) (u : User.t) :
  path req = ToggleBlockUser uid ->
  principal req st = Some aid ->
  first (user_by_id uid) (users st) = Some u ->
  (app req st).1 =
    jsonify [("message", JStr "User block status updated");
             ("is_blocked", JBool (negb (User.is_blocked u)))] 200 /\
  app req (app req st).2 =
    (jsonify [("message", JStr "User block status updated");
              ("is_blocked", JBool (User.is_blocked u))] 200, st).
Proof.
  intros Hp Hpr Hf.
  assert (Hg : guard_of (path req) = AdminGuard) by now rewrite Hp.
  assert (H1 : app req st =
               (jsonify [("message", JStr "User block status updated");
                         ("is_blocked", JBool (negb (User.is_blocked u)))] 200,
                set_users (map (flip_blocked_of u) (users st)) st)).
  { unfold app. rewrite Hp. rewrite (principal_admin req st aid _ Hg Hpr).
    unfold toggle_block_user. rewrite Hf. reflexivity. }
  rewrite H1. cbn [fst snd]. split; [reflexivity|].
  set (st1 := set_users _ st).
  assert (Hpr1 : principal req st1 = Some aid) by exact Hpr.
  assert (Hf1 : first (user_by_id uid) (users st1) = Some (flip_blocked u)).
  { unfold st1. cbn [users set_users].
    rewrite first_map_preserving.
    - rewrite Hf. cbn [option_map]. unfold flip_blocked_of. now rewrite Nat.eqb_refl.
    - intros q. unfold flip_blocked_of, user_by_id.
      destruct (Nat.eqb (User.id q) (User.id u)); reflexivity. }
  unfold app. rewrite Hp. rewrite (principal_admin req st1 aid _ Hg Hpr1).
  unfold toggle_block_user. rewrite Hf1. cbn [catch ok flip_blocked User.is_blocked].
  rewrite negb_involutive. f_equal.
  unfold st1. cbn [users set_users].
  change (fun q : User.t =>
            if Nat.eqb (User.id q) (User.id (flip_blocked u))
            then flip_blocked q else q)
    with (flip_blocked_of (flip_blocked u)).
  rewrite flip_blocked_of_twice. now destruct st.
Qed.

(** X16: The owner's DELETE /history/{id} answers 200, removes the rows with
    that id and keeps every other row; repeating it answers 404. *)
Theorem owner_deletes_own_prediction
  (req : request) (st : state) (uid i : nat) (p : Prediction.t) :
  path req = DeleteHistory i ->
  principal req st = Some uid ->
  first (by_id_and_owner i uid) (predictions st) = Some p ->
  (app req st).1 = message "deleted" 200 /\
  (forall q, In q (predictions (app req st).2) <->
             In q (predictions st) /\ Prediction.id q <> i) /\
  users (app req st).2 = users st /\
  app req (app req st).2 = (error "Prediction not found" 404, (app req st).2).
Proof.
  intros Hp Hpr Hf.
  assert (Hg : guard_of (path req) = UserGuard) by now rewrite Hp.
  assert (Hid : Prediction.id p = i).
  { apply first_some in Hf. destruct Hf as [_ Hf]. unfold by_id_and_owner in Hf.
    apply andb_true_iff in Hf. now apply Nat.eqb_eq. }
  assert (H1 : app req st =
               (message "deleted" 200,
                set_predictions (delete_prediction p (predictions st)) st)).
  { unfold app. rewrite Hp. rewrite (principal_user req st uid _ Hg Hpr).
    unfold delete_history. now rewrite Hf. }
  rewrite H1. cbn [fst snd predictions users set_predictions].
  assert (Hin : forall q, In q (delete_prediction p (predictions st)) <->
                          In q (predictions st) /\ Prediction.id q <> i).
  { intros q. unfold delete_prediction.
    rewrite <- !list_elem_of_In, list_elem_of_filter, Hid. tauto. }
  split; [reflexivity|]. split; [exact Hin|]. split; [reflexivity|].
  set (st1 := set_predictions _ st).
  unfold app. rewrite Hp. rewrite (principal_user req st1 uid _ Hg Hpr).
  unfold delete_history.
  assert (Hnone : first (by_id_and_owner i uid) (predictions st1) = None).
  { apply first_none_iff. intros q Hq. apply Hin in Hq. destruct Hq as [_ Hq].
    unfold by_id_and_owner. apply Nat.eqb_neq in Hq. now rewrite Hq. }
  now rewrite Hnone.
Qed.

(** X17: An admin's DELETE /admin/predictions/{id} removes the rows with that
    id whoever owns them, and nothing else. *)
Theorem admin_deletes_any_prediction
  (req : request) (st : state) (aid i : nat) (p : Prediction.t) :
  path req = DeletePredictionAdmin i ->
  principal req st = Some aid ->
  In p (predictions st) ->
  Prediction.id p = i ->
  (app req st).1 = message "Prediction deleted successfully" 200 /\
  (forall q, In q (predictions (app req st).2) <->
             In q (predictions st) /\ Prediction.id q <> i) /\
  users (app req st).2 = users st.
Proof.
  intros Hp Hpr Hin Hid.
  assert (Hg : guard_of (path req) = AdminGuard) by now rewrite Hp.
  destruct (first_exists (fun q => Nat.eqb (Prediction.id q) i) (predictions st) p Hin)
    as [p' Hf]; [now apply Nat.eqb_eq|].
  assert (Hid' : Prediction.id p' = i).
  { apply first_some in Hf. destruct Hf as [_ Hf]. now apply Nat.eqb_eq. }
  assert (H1 : app req st =
               (message "Prediction deleted successfully" 200,
                set_predictions (delete_prediction p' (predictions st)) st)).
  { unfold app. rewrite Hp. rewrite (principal_admin req st aid _ Hg Hpr).
    unfold delete_prediction_admin. now rewrite Hf. }
  rewrite H1. cbn [fst snd predictions users set_predictions].
  split; [reflexivity|]. split; [|reflexivity].
  intros q. unfold delete_prediction.
  rewrite <- !list_elem_of_In, list_elem_of_filter, Hid'. tauto.
Qed.

(** X18: A POST /predict answered 200 stores one row owned by the caller, not
    a favorite, stamped with the time of the request, answers its id,
    and the caller's next GET /history shows it. *)
Theorem predicted_row_shows_in_history
  (req hist : request) (st : state) (uid : nat) :
  path req = Predict ->
  principal req st = Some uid ->
  status (app req st).1 = 200%nat ->
  path hist = History ->
  principal hist (app req st).2 = Some uid ->
  exists p items,
    predictions (app req st).2 = predictions st ++ [p] /\
    Prediction.user_id p = uid /\
    Prediction.favorite p = false /\
    Prediction.created_at p = now req /\
    json_body req = ok (Prediction.input_data p) /\
    (app req st).1 =
      jsonify [("predicted_price", JFloat (Prediction.price p));
               ("prediction_id", JInt (Z.of_nat (Prediction.id p)))] 200 /\
    (app hist (app req st).2).1 = mkResponse 200 (JArr items) /\
    In (prediction_json p) items.
Proof.
  intros Hp Hpr Hok Hph Hprh.
  assert (Hg : guard_of (path req) = UserGuard) by now rewrite Hp.
  assert (Hgh : guard_of (path hist) = UserGuard) by now rewrite Hph.
  revert Hok Hprh. unfold app at 1 2 3 4 5 6. rewrite Hp.
  rewrite (principal_user req st uid _ Hg Hpr).
  unfold predict.
  destruct (json_body req) as [e|data]; [cbn; discriminate|]. cbn [bind].
  destruct (translate furnishing_classes data) as [e|v]; [cbn; discriminate|]. cbn [bind].
  destruct (model_predict v) as [e|price]; [cbn; discriminate|].
  cbn [bind catch ok fst snd]. intros _ Hprh.
  eexists _, _. cbn [predictions set_predictions].
  split; [reflexivity|]. cbn [Prediction.user_id Prediction.favorite Prediction.created_at
                              Prediction.input_data Prediction.price Prediction.id].
  do 5 (split; [reflexivity|]).
  unfold app. rewrite Hph. rewrite (principal_user hist _ uid _ Hgh Hprh).
  unfold get_history. cbn [catch ok fst predictions set_predictions].
  split; [reflexivity|].
  apply in_map. apply In_order_by_desc. apply list_elem_of_In, list_elem_of_filter.
  split; [unfold owned_by; cbn; apply Nat.eqb_refl|].
  apply list_elem_of_In, in_or_app. right. now left.
Qed.
End Resources.

(** ** Statistics on any store *)

Lemma Qmaxb_ge a b : (a <= Qmaxb a b)%Q /\ (b <= Qmaxb a b)%Q.
Proof.
  unfold Qmaxb. destruct (Qle_bool a b) eqn:E.
  - apply Qle_bool_iff in E. split; [exact E | apply Qle_refl].
  - split; [apply Qle_refl|]. apply Qlt_le_weak, Qnot_le_lt.
    intros Hle. apply Qle_bool_iff in Hle. congruence.
Qed.

Lemma Qminb_le a b : (Qminb a b <= a)%Q /\ (Qminb a b <= b)%Q.
Proof.
  unfold Qminb. destruct (Qle_bool b a) eqn:E.
  - apply Qle_bool_iff in E. split; [exact E | apply Qle_refl].
  - split; [apply Qle_refl|]. apply Qlt_le_weak, Qnot_le_lt.
    intros Hle. apply Qle_bool_iff in Hle. congruence.
Qed.

Lemma fold_max_ge (l : list Q) (acc : Q) :
  (acc <= fold_left Qmaxb l acc)%Q /\
  (forall x, In x l -> (x <= fold_left Qmaxb l acc)%Q).
Proof.
  revert acc. induction l as [|y l IH]; intros acc; cbn [fold_left].
  - split; [apply Qle_refl | intros x []].
  - destruct (IH (Qmaxb acc y)) as [Hacc Hall]. destruct (Qmaxb_ge acc y) as [Ha Hy].
    split; [now apply (Qle_trans _ (Qmaxb acc y))|].
    intros x [<-|Hx]; [now apply (Qle_trans _ (Qmaxb acc y)) | now apply Hall].
Qed.

Lemma fold_min_le (l : list Q) (acc : Q) :
  (fold_left Qminb l acc <= acc)%Q /\
  (forall x, In x l -> (fold_left Qminb l acc <= x)%Q).
Proof.
  revert acc. induction l as [|y l IH]; intros acc; cbn [fold_left].
  - split; [apply Qle_refl | intros x []].
  - destruct (IH (Qminb acc y)) as [Hacc Hall]. destruct (Qminb_le acc y) as [Ha Hy].
    split; [now apply (Qle_trans _ (Qminb acc y))|].
    intros x [<-|Hx]; [now apply (Qle_trans _ (Qminb acc y)) | now apply Hall].
Qed.

(** X19: On a store that is not empty the price range is made of two floats
    that bound every stored price. *)
Theorem price_range_bounds_every_price (ps : list Prediction.t) (p : Prediction.t) :
  In p ps ->
  exists lo hi,
    min_price ps = ok (NFloat lo) /\ max_price ps = ok (NFloat hi) /\
    (lo <= Prediction.price p)%Q /\ (Prediction.price p <= hi)%Q.
Proof.
  intros Hin. destruct ps as [|q ps]; [destruct Hin|].
  unfold min_price, max_price. cbn [non_empty map py_min py_max bind ok].
  eexists _, _. split; [reflexivity|]. split; [reflexivity|].
  destruct (fold_min_le (map Prediction.price ps) (Prediction.price q)) as [Hm0 Hm].
  destruct (fold_max_ge (map Prediction.price ps) (Prediction.price q)) as [HM0 HM].
  destruct Hin as [<-|Hin]; [split; assumption|].
  split; [apply Hm | apply HM]; now apply in_map.
Qed.

Section StatisticsTotal.
Context `{Collaborators}.

End StatisticsTotal.

(** ** The shape of the feature vector *)

Lemma index_of_lookup (s : string) (classes : list string) (i : nat) :
  index_of s classes = Some i -> classes !! i = Some s.
Proof.
  revert i. induction classes as [|c classes IH]; intros i; cbn [index_of]; [discriminate|].
  destruct (String.eqb_spec s c) as [->|Hne]; [now intros [= <-]|].
  destruct (index_of s classes) as [k|]; [|discriminate].
  intros [= <-]. cbn. now apply IH.
Qed.

Section Shape.
Context `{Collaborators}.

Lemma transform_text classes s code :
  transform classes (JStr s) = ok code ->
  exists i, code = Z.of_nat i /\ classes !! i = Some s.
Proof.
  unfold transform. destruct (index_of s classes) as [i|] eqn:Ei; [|discriminate].
  intros [= <-]. exists i. split; [reflexivity | now apply index_of_lookup].
Qed.

(** X21: A translation that succeeds gives twelve numbers: a float, three
    integers, five flags in {0, 1}, an integer, a flag, and the code the
    encoder gives the submitted furnishing status, which for a string is
    its position among the encoder's classes. *)
Theorem translate_vector_shape (classes : list string) (data : json) (v : list num) :
  translate classes data = ok v ->
  exists area bedrooms bathrooms stories mainroad guestroom basement
         hotwaterheating airconditioning parking prefarea label code,
    v = [NFloat area; NInt bedrooms; NInt bathrooms; NInt stories; NInt mainroad;
         NInt guestroom; NInt basement; NInt hotwaterheating; NInt airconditioning;
         NInt parking; NInt prefarea; NInt code] /\
    Forall (fun b => b = 0 \/ b = 1)%Z
           [mainroad; guestroom; basement; hotwaterheating; airconditioning; prefarea] /\
    getitem data "furnishingstatus" = ok label /\
    transform classes label = ok code /\
    (forall s, label = JStr s ->
               exists i, code = Z.of_nat i /\ classes !! i = Some s).
Proof.
  intros Hv. apply translate_reads_payload in Hv.
  destruct Hv as (area & bedrooms & bathrooms & stories & parking & code &
                  _ & _ & _ & _ & _ & Hcode &
                  mainroad & guestroom & basement & hotwaterheating &
                  airconditioning & prefarea & _ & _ & _ & _ & _ & _ & ->).
  destruct (getitem data "furnishingstatus") as [|label] eqn:Eg; [discriminate Hcode|].
  cbn [bind] in Hcode.
  exists area, bedrooms, bathrooms, stories, (yn mainroad), (yn guestroom),
         (yn basement), (yn hotwaterheating), (yn airconditioning), parking,
         (yn prefarea), label, code.
  split; [reflexivity|]. split.
  - repeat (constructor;
            [match goal with |- (yn ?x = _ \/ _)%Z =>
               destruct (yn_zero_or_one x); auto end|]).
    constructor.
  - split; [reflexivity|]. split; [exact Hcode|].
    intros s ->. now apply transform_text.
Qed.
End Shape.

(** ** Unique emails *)

Lemma NoDup_map_filter_any {A B} (key : A -> B) (P : A -> Prop)
      `{forall x, Decision (P x)} (l : list A) :
  NoDup (map key l) -> NoDup (map key (filter P l)).
Proof.
  induction l as [|x l IH]; [trivial|].
  cbn [map]. rewrite NoDup_cons. intros [Hx Hnd].
  rewrite filter_cons. destruct (decide (P x)); [|now apply IH].
  cbn [map]. apply NoDup_cons. split; [|now apply IH].
  intros Hin. apply Hx. apply list_elem_of_In. apply list_elem_of_In in Hin.
  apply in_map_iff in Hin. destruct Hin as (y & Hy & Hin).
  apply in_map_iff. exists y. split; [exact Hy|].
  apply list_elem_of_In. apply list_elem_of_In, list_elem_of_filter in Hin. tauto.
Qed.

Lemma map_email_flip_blocked (i : nat) (us : list User.t) :
  map User.email (map (fun u => if Nat.eqb (User.id u) i then flip_blocked u else u) us)
    = map User.email us.
Proof.
  rewrite map_map. apply map_ext. intros u.
  destruct (Nat.eqb (User.id u) i); reflexivity.
Qed.

Lemma NoDup_map_email_append (u : User.t) (us : list User.t) :
  first (by_email (User.email u)) us = None ->
  NoDup (map User.email us) -> NoDup (map User.email (us ++ [u])).
Proof.
  intros Hf Hnd. rewrite map_app. apply NoDup_app. split; [exact Hnd|]. split.
  - intros e He He'. apply list_elem_of_In in He. apply list_elem_of_In in He'.
    simpl in He'. destruct He' as [<-|[]].
    apply in_map_iff in He. destruct He as (x & Hx & Hin).
    pose proof (proj1 (first_none_iff _ _) Hf x Hin) as Hb.
    unfold by_email in Hb. rewrite Hx, String.eqb_refl in Hb. discriminate Hb.
  - cbn [map]. apply NoDup_cons. split; [|constructor].
    intros Hin. apply list_elem_of_In in Hin. destruct Hin.
Qed.

Section Emails.
Context `{Collaborators}.

(** X22: No request makes two users share an email: registration checks the
    email against the table before it inserts, and the other routes
    insert no user and change no email. *)
Theorem app_keeps_emails_unique (req : request) (st : state) :
  unique_emails st -> unique_emails (app req st).2.
Proof.
  intros Hk. unfold app. destruct (path req);
    try (apply token_required_keeps; [exact Hk|]; intros uid);
    try (apply admin_required_keeps; [exact Hk|]; intros aid);
    unfold_handlers; route_cases; unfold unique_emails in *;
    cbn [users set_users set_predictions set_active_tokens set_admin_tokens];
    try exact Hk.
  - apply NoDup_map_email_append; [cbn [User.email]; assumption | exact Hk].
  - unfold delete_user_row. now apply NoDup_map_filter_any.
  - now rewrite map_email_flip_blocked.
Qed.
End Emails.

(** ** Provisioning *)

Section Provisioning.
Context `{Collaborators}.

(** X23: Running the provisioning script again changes nothing, and the
    admin row it leaves has the default email. *)
Theorem create_admin_is_idempotent (salt salt' : string) (clock clock' : nat) (st : state) :
  create_admin salt' clock' (create_admin salt clock st) = create_admin salt clock st /\
  exists a, first (admin_by_email ADMIN_EMAIL) (admins (create_admin salt clock st)) = Some a /\
            Admin.email a = ADMIN_EMAIL.
Proof.
  assert (Hex : exists a, first (admin_by_email ADMIN_EMAIL)
                                (admins (create_admin salt clock st)) = Some a).
  { unfold create_admin.
    destruct (first (admin_by_email ADMIN_EMAIL) (admins st)) as [a|] eqn:Hf; [eauto|].
    cbn [admins]. rewrite (first_app_none _ _ _ Hf). cbn. eauto. }
  destruct Hex as [a Ha]. split.
  - unfold create_admin at 1. now rewrite Ha.
  - exists a. split; [exact Ha|]. apply first_some in Ha. destruct Ha as [_ Ha].
    unfold admin_by_email in Ha. now apply String.eqb_eq in Ha.
Qed.

(** X24: On a database without the default admin, the admin login with the
    default credentials is answered 200 after provisioning, provided the
    hash of a password verifies that password. *)
Theorem provisioned_admin_can_log_in
  (salt : string) (clock : nat) (st : state) (req : request) :
  first (admin_by_email ADMIN_EMAIL) (admins st) = None ->
  check_password_hash (generate_password_hash salt ADMIN_PASSWORD) ADMIN_PASSWORD = true ->
  json_body req = ok (credentials ADMIN_EMAIL ADMIN_PASSWORD) ->
  status (admin_login req (create_admin salt clock st)).1 = 200%nat /\
  admin_tokens (admin_login req (create_admin salt clock st)).2 !! rand req
    = Some (next_id (map Admin.id (admins st))).
Proof.
  intros Hf Hc Hb. unfold create_admin. rewrite Hf.
  set (admin := Admin.mk _ _ _ _ _).
  assert (He : get (credentials ADMIN_EMAIL ADMIN_PASSWORD) "email" = ok (JStr ADMIN_EMAIL))
    by reflexivity.
  assert (Hp : get (credentials ADMIN_EMAIL ADMIN_PASSWORD) "password"
               = ok (JStr ADMIN_PASSWORD)) by reflexivity.
  assert (Ht : negb (truthy (JStr ADMIN_EMAIL)) || negb (truthy (JStr ADMIN_PASSWORD)) = false)
    by reflexivity.
  assert (Hfind : first (admin_by_email ADMIN_EMAIL) (admins st ++ [admin]) = Some admin).
  { rewrite (first_app_none _ _ _ Hf). reflexivity. }
  unfold admin_login. rewrite Hb. cbn [bind ok]. rewrite He. cbn [bind ok].
  rewrite Hp. cbn [bind ok]. rewrite Ht. cbn [as_text password_text bind ok admins].
  rewrite Hfind. cbn [bind ok].
  assert (Hpw : Admin.password admin = generate_password_hash salt ADMIN_PASSWORD)
    by reflexivity.
  rewrite Hpw, Hc.
  cbn [negb catch fst snd status jsonify admin_tokens set_admin_tokens].
  split; [reflexivity | apply lookup_insert_eq].
Qed.
End Provisioning.

Lemma unauthenticated_request_is_rejected_witness :
  exists msg,
    @app sample_collaborators (mkRequest Predict (Some "Bearer nobody") (ok example_payload) 1 "")
         provisioned_state = (error msg 401, provisioned_state).
Proof.
  apply (@unauthenticated_request_is_rejected sample_collaborators).
  - discriminate.
  - reflexivity.
Defined.

Lemma read_only_routes_keep_state_witness :
  (@app sample_collaborators (mkRequest AdminStats (Some "Bearer x") (ok JNull) 1 "")
        provisioned_state).2 = provisioned_state.
Proof.
  apply (@read_only_routes_keep_state sample_collaborators). reflexivity.
Defined.

Lemma credentials_are_required_witness :
  let req := mkRequest Register None (ok (credentials "" "pw")) 1 "salt" in
  @register sample_collaborators req empty_state
    = (error "Email and password required" 400, empty_state) /\
  @login sample_collaborators req empty_state
    = (error "Email and password required" 400, empty_state) /\
  @admin_login sample_collaborators req empty_state
    = (error "Email and password required" 400, empty_state).
Proof.
  intros req.
  apply (@credentials_are_required sample_collaborators req empty_state
           (credentials "" "pw") (JStr "") (JStr "pw")); try reflexivity.
  left. reflexivity.
Defined.

Lemma duplicate_email_is_refused_witness :
  let u := User.mk 1 "u@x.org" "salt1$pw" false 1 in
  let st := mkState [u] [] [] ∅ ∅ in
  let req := mkRequest Register None (ok (credentials "u@x.org" "other")) 2 "salt2" in
  @register sample_collaborators req st = (error "Email already registered" 400, st).
Proof.
  intros u st req.
  apply (@duplicate_email_is_refused sample_collaborators req st
           (credentials "u@x.org" "other") (JStr "other") "u@x.org" u);
    try reflexivity.
  - discriminate.
  - simpl. now left.
Defined.

Lemma login_issues_token_iff_verified_witness :
  let u := User.mk 1 "u@x.org" "salt1$pw" false 1 in
  let st := mkState [u] [] [] ∅ ∅ in
  (@login sample_collaborators login_req st).2
    = set_active_tokens (<["usertok" := 1%nat]> ∅) st.
Proof.
  intros u st.
  apply (proj1 (proj2 (@login_issues_token_iff_verified sample_collaborators
                         login_req st (credentials "u@x.org" "pw") "u@x.org" "pw"
                         eq_refl eq_refl eq_refl)) u);
    try reflexivity; discriminate.
Defined.

Lemma login_keeps_other_tokens_witness :
  let u := User.mk 1 "u@x.org" "salt1$pw" false 1 in
  let st := mkState [u] [] [] {[ "old" := 1%nat ]} ∅ in
  active_tokens (@login sample_collaborators login_req st).2 !! "old" = Some 1%nat.
Proof.
  intros u st.
  rewrite (proj1 (@login_keeps_other_tokens sample_collaborators login_req st "old"
                    ltac:(discriminate))).
  reflexivity.
Defined.

Lemma register_then_login_witness :
  status (@login sample_collaborators login_req
            (@register sample_collaborators register_req provisioned_state).2).1 = 200%nat /\
  active_tokens (@login sample_collaborators login_req
                   (@register sample_collaborators register_req provisioned_state).2).2
    !! "usertok" = Some 1%nat.
Proof.
  destruct (@register_then_login sample_collaborators register_req login_req
              provisioned_state (credentials "u@x.org" "pw") (credentials "u@x.org" "pw")
              "u@x.org" "pw" eq_refl eq_refl eq_refl eq_refl eq_refl eq_refl eq_refl eq_refl)
    as (Hs & Ht & _).
  split; [exact Hs | exact Ht].
Defined.

Lemma issued_token_is_accepted_witness :
  let req := mkRequest Me (Some "Bearer usertok") (ok JNull) 3 "" in
  let st := set_active_tokens (<["usertok" := 1%nat]> ∅) empty_state in
  token_required (@get_current_user sample_collaborators) req st
    = @get_current_user sample_collaborators 1 req st.
Proof.
  intros req st.
  apply (issued_token_is_accepted
           (@get_current_user sample_collaborators) req empty_state "usertok" 1);
    [reflexivity | discriminate | reflexivity].
Defined.

Lemma logged_out_token_is_refused_witness :
  let st := mkState [] [] [] {[ "usertok" := 1%nat ]} ∅ in
  let req := mkRequest Logout (Some "Bearer usertok") (ok JNull) 3 "" in
  (@app sample_collaborators req st).1 = message "Logged out successfully" 200 /\
  @app sample_collaborators predict_req (@app sample_collaborators req st).2
    = (error "Invalid or expired token" 401, (@app sample_collaborators req st).2).
Proof.
  intros st req.
  apply (@logged_out_token_is_refused sample_collaborators req predict_req st 1);
    reflexivity.
Defined.

Lemma history_is_scoped_and_newest_first_witness :
  exists rows,
    @app sample_collaborators (as_user History) sample_store
      = (mkResponse 200 (JArr (map (@prediction_json sample_collaborators) rows)),
         sample_store) /\
    Permutation rows
      (filter (fun p => Prediction.user_id p = 1%nat) (predictions sample_store)) /\
    newest_first Prediction.created_at rows /\
    (forall p, In p rows <->
               In p (predictions sample_store) /\ Prediction.user_id p = 1%nat).
Proof.
  apply (@history_is_scoped_and_newest_first sample_collaborators
           (as_user History) sample_store 1); reflexivity.
Defined.

Lemma admin_listing_is_complete_and_newest_first_witness :
  exists rows,
    @app sample_collaborators (as_admin AdminPredictions) sample_store
      = (mkResponse 200
           (JArr (map (@admin_prediction_json sample_collaborators (users sample_store)) rows)),
         sample_store) /\
    Permutation rows (predictions sample_store) /\
    newest_first Prediction.created_at rows.
Proof.
  apply (@admin_listing_is_complete_and_newest_first sample_collaborators
           (as_admin AdminPredictions) sample_store 1); reflexivity.
Defined.

Lemma toggle_favorite_twice_witness :
  (@app sample_collaborators (as_user (ToggleFavorite 3)) sample_store).1
    = jsonify [("message", JStr "favorite toggled"); ("favorite", JBool true)] 200 /\
  @app sample_collaborators (as_user (ToggleFavorite 3))
       (@app sample_collaborators (as_user (ToggleFavorite 3)) sample_store).2
    = (jsonify [("message", JStr "favorite toggled"); ("favorite", JBool false)] 200,
       sample_store).
Proof.
  apply (@toggle_favorite_twice sample_collaborators (as_user (ToggleFavorite 3))
           sample_store 1 3 (Prediction.mk 3 1 example_payload (3900000 # 1) false 12));
    reflexivity.
Defined.

Lemma toggle_block_twice_witness :
  (@app sample_collaborators (as_admin (ToggleBlockUser 2)) sample_store).1
    = jsonify [("message", JStr "User block status updated");
               ("is_blocked", JBool false)] 200 /\
  @app sample_collaborators (as_admin (ToggleBlockUser 2))
       (@app sample_collaborators (as_admin (ToggleBlockUser 2)) sample_store).2
    = (jsonify [("message", JStr "User block status updated");
                ("is_blocked", JBool true)] 200, sample_store).
Proof.
  apply (@toggle_block_twice sample_collaborators (as_admin (ToggleBlockUser 2))
           sample_store 1 2 (User.mk 2 "v@x.org" "salt2$pw" true 2));
    reflexivity.
Defined.

Lemma owner_deletes_own_prediction_witness :
  let st' := (@app sample_collaborators (as_user (DeleteHistory 1)) sample_store).2 in
  (@app sample_collaborators (as_user (DeleteHistory 1)) sample_store).1
    = message "deleted" 200 /\
  @app sample_collaborators (as_user (DeleteHistory 1)) st'
    = (error "Prediction not found" 404, st').
Proof.
  destruct (@owner_deletes_own_prediction sample_collaborators (as_user (DeleteHistory 1))
              sample_store 1 1 (Prediction.mk 1 1 example_payload (4500000 # 1) false 10)
              eq_refl eq_refl eq_refl) as (Hr & _ & _ & Hagain).
  split; [exact Hr | exact Hagain].
Defined.

Lemma admin_deletes_any_prediction_witness :
  (@app sample_collaborators (as_admin (DeletePredictionAdmin 2)) sample_store).1
    = message "Prediction deleted successfully" 200 /\
  users (@app sample_collaborators (as_admin (DeletePredictionAdmin 2)) sample_store).2
    = users sample_store.
Proof.
  destruct (@admin_deletes_any_prediction sample_collaborators
              (as_admin (DeletePredictionAdmin 2)) sample_store 1 2
              (Prediction.mk 2 2 example_payload (5200000 # 1) true 11)
              eq_refl eq_refl) as (Hr & _ & Hu); [simpl; tauto | reflexivity |].
  split; [exact Hr | exact Hu].
Defined.

Lemma predicted_row_shows_in_history_witness :
  exists p items,
    predictions (@app sample_collaborators (as_user Predict) sample_store).2
      = predictions sample_store ++ [p] /\
    Prediction.user_id p = 1%nat /\
    (@app sample_collaborators (as_user History)
          (@app sample_collaborators (as_user Predict) sample_store).2).1
      = mkResponse 200 (JArr items) /\
    In (@prediction_json sample_collaborators p) items.
Proof.
  destruct (@predicted_row_shows_in_history sample_collaborators (as_user Predict)
              (as_user History) sample_store 1 eq_refl eq_refl eq_refl eq_refl eq_refl)
    as (p & items & Hps & Hu & _ & _ & _ & _ & Hh & Hin).
  exists p, items. repeat split; assumption.
Defined.

Lemma price_range_bounds_every_price_witness :
  exists lo hi,
    min_price (predictions sample_store) = ok (NFloat lo) /\
    max_price (predictions sample_store) = ok (NFloat hi) /\
    (lo <= 5200000 # 1)%Q /\ (5200000 # 1 <= hi)%Q.
Proof.
  apply (price_range_bounds_every_price (predictions sample_store)
           (Prediction.mk 2 2 example_payload (5200000 # 1) true 11)).
  simpl. tauto.
Defined.


Lemma translate_vector_shape_witness :
  exists area bedrooms bathrooms stories mainroad guestroom basement
         hotwaterheating airconditioning parking prefarea label code,
    example_vector 1 =
      [NFloat area; NInt bedrooms; NInt bathrooms; NInt stories; NInt mainroad;
       NInt guestroom; NInt basement; NInt hotwaterheating; NInt airconditioning;
       NInt parking; NInt prefarea; NInt code] /\
    Forall (fun b => b = 0 \/ b = 1)%Z
           [mainroad; guestroom; basement; hotwaterheating; airconditioning; prefarea] /\
    @getitem sample_collaborators example_payload "furnishingstatus" = ok label /\
    @transform sample_collaborators (@furnishing_classes sample_collaborators) label
      = ok code /\
    (forall s, label = JStr s ->
               exists i, code = Z.of_nat i /\
                         @furnishing_classes sample_collaborators !! i = Some s).
Proof.
  apply (@translate_vector_shape sample_collaborators
           (@furnishing_classes sample_collaborators) example_payload).
  reflexivity.
Defined.

Lemma app_keeps_emails_unique_witness :
  unique_emails (@app sample_collaborators register_req sample_store).2.
Proof.
  apply (@app_keeps_emails_unique sample_collaborators).
  unfold unique_emails. simpl.
  apply NoDup_cons. split.
  - intros Hin. apply list_elem_of_In in Hin. simpl in Hin.
    destruct Hin as [Hin|[]]. discriminate Hin.
  - apply NoDup_cons. split; [|constructor].
    intros Hin. apply list_elem_of_In in Hin. destruct Hin.
Defined.

Lemma provisioned_admin_can_log_in_witness :
  status (@admin_login sample_collaborators admin_login_req
            (@create_admin sample_collaborators "salt" 0 empty_state)).1 = 200%nat /\
  admin_tokens (@admin_login sample_collaborators admin_login_req
                  (@create_admin sample_collaborators "salt" 0 empty_state)).2
    !! "admintok" = Some 1%nat.
Proof.
  apply (@provisioned_admin_can_log_in sample_collaborators "salt" 0 empty_state
           admin_login_req); reflexivity.
Defined.

Lemma translate_missing_key_witness :
  exists e, @translate sample_collaborators (@furnishing_classes sample_collaborators)
                       (JObj [("area", JStr "7500"); ("bedrooms", JInt 4)]) = raise e.
Proof.
  apply (@translate_missing_key sample_collaborators _
           [("area", JStr "7500"); ("bedrooms", JInt 4)] "parking").
  - simpl. tauto.
  - reflexivity.
Defined.

Lemma translate_unseen_category_witness :
  exists e, @translate sample_collaborators (@furnishing_classes sample_collaborators)
                       (JObj [("furnishingstatus", JStr "Furnished")]) = raise e.
Proof.
  apply (@translate_unseen_category sample_collaborators _
           (JObj [("furnishingstatus", JStr "Furnished")]) "Furnished").
  - reflexivity.
  - simpl. intros [H|[H|[H|[]]]]; discriminate H.
Defined.
